(** * Solar energy dashboard: the synthetic dataset generator

    A shallow embedding of [src/solar_energy_dashboard.py]: the body of
    [load_solar_data] (its three constant tables, the three yield formulas,
    the season dispatch and the two nested generation loops), the sidebar
    widgets and the filter that every chart reads, the numbers of the five
    metric cards, the grouped means behind the charts by season and by
    month, and the reruns of the script within one session.  The
    correlation matrix and the summary tables need square roots and
    quantiles and are left out.

    Numbers.  The script computes on binary64 [float]s.  The file carries
    two embeddings of the generator.  In the first, numbers are exact
    rationals [Q], decimal literals the fractions they denote and
    [round(x, 2)] rounding to the nearest hundredth, ties to even: it
    serves the statements that binary64 rounding cannot disturb (the
    shape of the table, ranges, tolerances and bands with room to spare)
    and those marked as holding in exact arithmetic.  In the second,
    modules [Binary64] and [Binary64Generator], numbers are the kernel's
    IEEE 754 binary64 numbers, every operation rounded as the processor
    rounds it, and [round] is Python's correctly rounded one: it serves
    the statements about the very digits a row stores.

    Randomness.  [np.random] is a hidden global generator: it is embedded
    as an abstract state with one operation, [random_sample], that returns
    a number and the next state.  Every function that draws threads that
    state explicitly; results that need the number to lie in [0, 1) say
    so.

    Exceptions.  A failed dictionary subscript raises [KeyError], an
    unbound name [NameError], and a call of [None] [TypeError]: the loops
    live in a state and exception monad [M]. *)

From Stdlib Require Import ZArith QArith Qround Qabs Qminmax Lqa Lia.
From Stdlib Require PrimFloat Floats Uint63.
From stdpp Require Import base option list strings gmap sorting.

Local Open Scope Z_scope.
Local Open Scope string_scope.
Local Open Scope list_scope.
Local Open Scope Q_scope.

(** ** Numbers *)

(** Nearest integer, ties to the even neighbour. *)
Definition round_half_even (x : Q) : Z :=
  let f := Qfloor x in
  match Qcompare (x - inject_Z f) (1 # 2) with
  | Lt => f
  | Gt => (f + 1)%Z
  | Eq => if Z.even f then f else (f + 1)%Z
  end.

(** Python's [round(x, ndigits)] for a non-negative [ndigits]. *)
Definition round (x : Q) (ndigits : nat) : Q :=
  let scale := inject_Z (10 ^ Z.of_nat ndigits) in
  inject_Z (round_half_even (x * scale)) / scale.

(** ** The constant tables of [load_solar_data] *)

(** [feature_ranges]: season, then field, to a [(low, high)] tuple. *)
Definition feature_ranges : gmap string (gmap string (Z * Z)) :=
  list_to_map [
    ("summer", list_to_map [
       ("irradiance", (600, 1000)%Z);
       ("humidity", (10, 50)%Z);
       ("wind_speed", (0, 5)%Z);
       ("ambient_temperature", (30, 45)%Z);
       ("tilt_angle", (10, 40)%Z)]);
    ("winter", list_to_map [
       ("irradiance", (300, 700)%Z);
       ("humidity", (30, 70)%Z);
       ("wind_speed", (1, 6)%Z);
       ("ambient_temperature", (5, 20)%Z);
       ("tilt_angle", (10, 40)%Z)]);
    ("monsoon", list_to_map [
       ("irradiance", (100, 600)%Z);
       ("humidity", (70, 100)%Z);
       ("wind_speed", (2, 8)%Z);
       ("ambient_temperature", (20, 35)%Z);
       ("tilt_angle", (10, 40)%Z)])
  ].

(** [months_days]: the loop iterates over [items()], so insertion order is
    part of the value. *)
Definition months_days : list (string * Z) := [
  ("January", 31); ("February", 28); ("March", 31); ("April", 30);
  ("May", 31); ("June", 30); ("July", 31); ("August", 31);
  ("September", 30); ("October", 31); ("November", 30); ("December", 31)
]%Z.

(** [month_to_season]: only ever subscripted. *)
Definition month_to_season : gmap string string :=
  list_to_map [
    ("January", "winter"); ("February", "winter"); ("March", "summer");
    ("April", "summer"); ("May", "summer"); ("June", "summer");
    ("July", "monsoon"); ("August", "monsoon"); ("September", "monsoon");
    ("October", "monsoon"); ("November", "winter"); ("December", "winter")
  ].

(** ** The yield formulas *)

Definition calc_kwh_summer (irradiance humidity wind_speed ambient_temp tilt_angle : Q) : Q :=
  0.25 * irradiance - 0.05 * humidity + 0.02 * wind_speed
  + 0.1 * ambient_temp - 0.03 * Qabs (tilt_angle - 30).

Definition calc_kwh_winter (irradiance humidity wind_speed ambient_temp tilt_angle : Q) : Q :=
  0.18 * irradiance - 0.03 * humidity + 0.015 * wind_speed
  + 0.08 * ambient_temp - 0.02 * Qabs (tilt_angle - 30).

Definition calc_kwh_monsoon (irradiance humidity wind_speed ambient_temp tilt_angle : Q) : Q :=
  0.15 * irradiance - 0.1 * humidity + 0.01 * wind_speed
  + 0.05 * ambient_temp - 0.04 * Qabs (tilt_angle - 30).

Definition calculator : Type := Q -> Q -> Q -> Q -> Q -> Q.

(** The [if]/[elif] chain has no [else]: any other season falls off the end
    and the function returns [None]. *)
Definition get_kwh_calculator (season : string) : option calculator :=
  if decide (season = "summer") then Some calc_kwh_summer
  else if decide (season = "winter") then Some calc_kwh_winter
  else if decide (season = "monsoon") then Some calc_kwh_monsoon
  else None.

(** The same three formulas on IEEE 754 binary64 numbers, each operation
    rounded to nearest as Python's [float] does.  Decimal literals denote
    the nearest binary64 number. *)
Module Binary64.
Import PrimFloat.
#[local] Set Warnings "-inexact-float".
Local Open Scope float_scope.

Definition calc_kwh_summer (irradiance humidity wind_speed ambient_temp tilt_angle : float)
    : float :=
  0.25 * irradiance - 0.05 * humidity + 0.02 * wind_speed
  + 0.1 * ambient_temp - 0.03 * abs (tilt_angle - 30).

Definition calc_kwh_winter (irradiance humidity wind_speed ambient_temp tilt_angle : float)
    : float :=
  0.18 * irradiance - 0.03 * humidity + 0.015 * wind_speed
  + 0.08 * ambient_temp - 0.02 * abs (tilt_angle - 30).

Definition calc_kwh_monsoon (irradiance humidity wind_speed ambient_temp tilt_angle : float)
    : float :=
  0.15 * irradiance - 0.1 * humidity + 0.01 * wind_speed
  + 0.05 * ambient_temp - 0.04 * abs (tilt_angle - 30).

(** The two worked examples, and how far the second is from 89.105. *)
Definition summer_example : float := calc_kwh_summer 800 30 2 38 30.
Definition winter_example : float := calc_kwh_winter 500 50 3 12 10.
Definition summer_example_is_202_34 : bool := summer_example =? 202.34.
Definition winter_example_is_89_105 : bool := winter_example =? 89.105.
Definition winter_example_gap : float := 89.105 - winter_example.
Definition winter_example_gap_is_one_ulp : bool := winter_example_gap =? 0x1p-46.
End Binary64.

(** ** Exceptions and the generator's monad *)

Inductive exception : Type :=
| KeyError (key : string)
| NameError (name : string)
| TypeError.

Inductive result (A : Type) : Type :=
| Ok (a : A)
| Raise (e : exception).
Arguments Ok {A} a.
Arguments Raise {A} e.

#[global] Instance result_ret : MRet result := fun A a => Ok a.
#[global] Instance result_bind : MBind result := fun A B k r =>
  match r with
  | Ok a => k a
  | Raise e => Raise e
  end.

(** [d[k]] on a dictionary. *)
Definition getitem {V : Type} (d : gmap string V) (k : string) : result V :=
  match d !! k with
  | Some v => Ok v
  | None => Raise (KeyError k)
  end.

(** [feature_ranges[season][field]]. *)
Definition feature_range (season field : string) : result (Z * Z) :=
  d ← getitem feature_ranges season; getitem d field.

(** One row of the table: the dictionary appended to [data]. *)
Record Row : Type := mkRow {
  day : Z;
  irradiance : Q;
  humidity : Q;
  wind_speed : Q;
  ambient_temperature : Q;
  tilt_angle : Q;
  kwh : Q;
  season : string;
  month : string
}.

(** A [pd.DataFrame] built from a list of row dictionaries, in list order. *)
Abbreviation DataFrame := (list Row).

(** The value [np.random.uniform(low, high)] returns when the underlying
    draw from [0, 1) is [u]. *)
Definition uniform_value (range : Z * Z) (u : Q) : Q :=
  let (low, high) := range in
  inject_Z low + (inject_Z high - inject_Z low) * u.

Section Generator.
(** The state of [np.random] and its one primitive. *)
Context {RandomState : Type}.
Variable random_sample : RandomState -> Q * RandomState.

Definition M (A : Type) : Type := RandomState -> result (A * RandomState).

#[local] Instance M_ret : MRet M := fun A a g => Ok (a, g).
#[local] Instance M_bind : MBind M := fun A B k m g =>
  match m g with
  | Ok (a, g') => k a g'
  | Raise e => Raise e
  end.

Definition lift {A : Type} (r : result A) : M A := fun g =>
  match r with
  | Ok a => Ok (a, g)
  | Raise e => Raise e
  end.

(** [np.random.uniform(low, high)] is [low + (high - low) * random_sample()];
    the call sites pass the unpacked range tuple. *)
Definition np_random_uniform (range : Z * Z) : M Q := fun g =>
  let (u, g') := random_sample g in
  Ok (uniform_value range u, g').

(** Calling [calc_kwh_func]: [None] is not callable. *)
Definition call (calc_kwh_func : option calculator) (irr hum wind temp tilt : Q) : M Q :=
  match calc_kwh_func with
  | Some f => mret (f irr hum wind temp tilt)
  | None => lift (Raise TypeError)
  end.

(** The body of [for day in range(days)], up to the dictionary it
    appends: five draws in the order of the source, the yield from the
    unrounded draws, then every number rounded to 2 places. *)
Definition day_row (season month : string) (calc_kwh_func : option calculator)
    (day_counter : Z) : M Row :=
  irr ← (r ← lift (feature_range season "irradiance"); np_random_uniform r);
  hum ← (r ← lift (feature_range season "humidity"); np_random_uniform r);
  wind ← (r ← lift (feature_range season "wind_speed"); np_random_uniform r);
  temp ← (r ← lift (feature_range season "ambient_temperature"); np_random_uniform r);
  tilt ← (r ← lift (feature_range season "tilt_angle"); np_random_uniform r);
  kwh ← call calc_kwh_func irr hum wind temp tilt;
  mret {| day := day_counter;
          irradiance := round irr 2;
          humidity := round hum 2;
          wind_speed := round wind 2;
          ambient_temperature := round temp 2;
          tilt_angle := round tilt 2;
          kwh := round kwh 2;
          season := season;
          month := month |}.

(** [for day in range(days)]: the loop variable [day] is unused; [data]
    grows at its end and [day_counter] by one per iteration. *)
Fixpoint days_loop (days : nat) (season month : string)
    (calc_kwh_func : option calculator) (data : DataFrame) (day_counter : Z)
    : M (DataFrame * Z) :=
  match days with
  | O => mret (data, day_counter)
  | S days' =>
      row ← day_row season month calc_kwh_func day_counter;
      days_loop days' season month calc_kwh_func (data ++ [row]) (day_counter + 1)%Z
  end.

(** [for month, days in months_days.items()]. *)
Fixpoint months_loop (items : list (string * Z)) (data : DataFrame) (day_counter : Z)
    : M (DataFrame * Z) :=
  match items with
  | [] => mret (data, day_counter)
  | (month, days) :: items' =>
      season ← lift (getitem month_to_season month);
      let calc_kwh_func := get_kwh_calculator season in
      '(data', day_counter') ←
        days_loop (Z.to_nat days) season month calc_kwh_func data day_counter;
      months_loop items' data' day_counter'
  end.

Definition generate_complete_year_data : M DataFrame :=
  '(data, _) ← months_loop months_days [] 1%Z;
  mret data.
End Generator.

(** ** The stream of draws behind a generator state *)

Section Draws.
Context {RandomState : Type}.
Variable random_sample : RandomState -> Q * RandomState.

(** The state after [n] draws. *)
Fixpoint advance (n : nat) (g : RandomState) : RandomState :=
  match n with
  | O => g
  | S n' => advance n' (snd (random_sample g))
  end.

(** The [k]-th number the generator hands out from state [g], from 0. *)
Definition draw (k : nat) (g : RandomState) : Q :=
  fst (random_sample (advance k g)).

(** The first [n] draws from [g]. *)
Definition draws (n : nat) (g : RandomState) : list Q :=
  map (fun k => draw k g) (seq 0 n).
End Draws.

(** Two generators hand out the same first [n] numbers. *)
Definition agree {RandomState1 RandomState2 : Type}
    (random_sample1 : RandomState1 -> Q * RandomState1)
    (random_sample2 : RandomState2 -> Q * RandomState2)
    (n : nat) (g1 : RandomState1) (g2 : RandomState2) : Prop :=
  forall k, (k < n)%nat -> draw random_sample1 k g1 = draw random_sample2 k g2.

(** ** What the loops are expected to build

    A loop-free description of the table in terms of the stream of draws;
    [generate_complete_year_data_expected] below proves that the loops
    compute it. *)

Definition seasons : list string := ["summer"; "winter"; "monsoon"].

Definition fields : list string :=
  ["irradiance"; "humidity"; "wind_speed"; "ambient_temperature"; "tilt_angle"].

Definition range_of (season field : string) : Z * Z :=
  match feature_range season field with
  | Ok r => r
  | Raise _ => (0, 0)%Z
  end.

Definition calculator_of (season : string) : calculator :=
  match get_kwh_calculator season with
  | Some f => f
  | None => fun _ _ _ _ _ => 0
  end.

Definition season_of (month : string) : string :=
  default "" (month_to_season !! month).

(** The five unrounded samples of a day whose draws are [u0 .. u4]. *)
Record Samples : Type := mkSamples {
  irr : Q; hum : Q; wind : Q; temp : Q; tilt : Q
}.

Definition samples_of (season : string) (u0 u1 u2 u3 u4 : Q) : Samples :=
  {| irr := uniform_value (range_of season "irradiance") u0;
     hum := uniform_value (range_of season "humidity") u1;
     wind := uniform_value (range_of season "wind_speed") u2;
     temp := uniform_value (range_of season "ambient_temperature") u3;
     tilt := uniform_value (range_of season "tilt_angle") u4 |}.

Definition apply_calculator (f : calculator) (x : Samples) : Q :=
  f (irr x) (hum x) (wind x) (temp x) (tilt x).

Definition row_of (season month : string) (day_counter : Z) (x : Samples) : Row :=
  {| day := day_counter;
     irradiance := round (irr x) 2;
     humidity := round (hum x) 2;
     wind_speed := round (wind x) 2;
     ambient_temperature := round (temp x) 2;
     tilt_angle := round (tilt x) 2;
     kwh := round (apply_calculator (calculator_of season) x) 2;
     season := season;
     month := month |}.

Section Expected.
Context {RandomState : Type}.
Variable random_sample : RandomState -> Q * RandomState.

Definition samples_at (season : string) (g : RandomState) : Samples :=
  samples_of season (draw random_sample 0 g) (draw random_sample 1 g)
    (draw random_sample 2 g) (draw random_sample 3 g) (draw random_sample 4 g).

Fixpoint expected_days (days : nat) (season month : string) (day_counter : Z)
    (g : RandomState) : DataFrame :=
  match days with
  | O => []
  | S days' =>
      row_of season month day_counter (samples_at season g)
      :: expected_days days' season month (day_counter + 1)%Z
           (advance random_sample 5 g)
  end.

Fixpoint expected_months (items : list (string * Z)) (day_counter : Z)
    (g : RandomState) : DataFrame :=
  match items with
  | [] => []
  | (month, days) :: items' =>
      let n := Z.to_nat days in
      expected_days n (season_of month) month day_counter g
      ++ expected_months items' (day_counter + Z.of_nat n)%Z
           (advance random_sample (5 * n) g)
  end.
End Expected.

Definition total_days (items : list (string * Z)) : nat :=
  foldr (fun item acc => (Z.to_nat item.2 + acc)%nat) 0%nat items.

(** The month a day number falls in, walking the month lengths in order. *)
Fixpoint month_of_day (items : list (string * Z)) (d : Z) : option string :=
  match items with
  | [] => None
  | (month, days) :: items' =>
      if (d <=? days)%Z then Some month else month_of_day items' (d - days)%Z
  end.

(** ** Ranges *)

Definition in_range (x : Q) (range : Z * Z) : Prop :=
  inject_Z range.1 <= x /\ x <= inject_Z range.2.

(** [x] lies in the interval [feature_ranges[season][field]]. *)
Definition in_feature_range (season field : string) (x : Q) : Prop :=
  exists range, feature_range season field = Ok range /\ in_range x range.

(** Every environmental field of [r] lies in the interval that
    [feature_ranges] gives for the row's season. *)
Definition within_feature_ranges (r : Row) : Prop :=
  in_feature_range (season r) "irradiance" (irradiance r)
  /\ in_feature_range (season r) "humidity" (humidity r)
  /\ in_feature_range (season r) "wind_speed" (wind_speed r)
  /\ in_feature_range (season r) "ambient_temperature" (ambient_temperature r)
  /\ in_feature_range (season r) "tilt_angle" (tilt_angle r).

(** The same, with the intervals written out season by season. *)
Definition within_listed_ranges (r : Row) : Prop :=
  (season r = "summer"
    /\ 600 <= irradiance r <= 1000 /\ 10 <= humidity r <= 50
    /\ 0 <= wind_speed r <= 5 /\ 30 <= ambient_temperature r <= 45
    /\ 10 <= tilt_angle r <= 40)
  \/ (season r = "winter"
    /\ 300 <= irradiance r <= 700 /\ 30 <= humidity r <= 70
    /\ 1 <= wind_speed r <= 6 /\ 5 <= ambient_temperature r <= 20
    /\ 10 <= tilt_angle r <= 40)
  \/ (season r = "monsoon"
    /\ 100 <= irradiance r <= 600 /\ 70 <= humidity r <= 100
    /\ 2 <= wind_speed r <= 8 /\ 20 <= ambient_temperature r <= 35
    /\ 10 <= tilt_angle r <= 40).

(** The unrounded samples [x] lie in the season's intervals. *)
Definition samples_in_range (season : string) (x : Samples) : Prop :=
  in_feature_range season "irradiance" (irr x)
  /\ in_feature_range season "humidity" (hum x)
  /\ in_feature_range season "wind_speed" (wind x)
  /\ in_feature_range season "ambient_temperature" (temp x)
  /\ in_feature_range season "tilt_angle" (tilt x).

(** Every month of [items] has a season, and that season a formula. *)
Definition months_ok (items : list (string * Z)) : Prop :=
  Forall (fun item => exists season,
            month_to_season !! item.1 = Some season /\ season ∈ seasons) items.

(** The season's formula applied to the stored (rounded) fields of a row. *)
Definition recomputed_kwh (f : calculator) (r : Row) : Q :=
  f (irradiance r) (humidity r) (wind_speed r) (ambient_temperature r) (tilt_angle r).

(** The reading under test for the stored yield: it equals the value of
    the season's formula at the samples [x], with no rounding. *)
Definition stored_kwh_is_formula_value (r : Row) (x : Samples) : Prop :=
  exists f, get_kwh_calculator (season r) = Some f
            /\ kwh r == f (irr x) (hum x) (wind x) (temp x) (tilt x).

(** The day number, month and season of every row, in table order: the
    part of the table that no draw influences. *)
Fixpoint calendar (items : list (string * Z)) (day_counter : Z)
    : list (Z * string * string) :=
  match items with
  | [] => []
  | (month, days) :: items' =>
      let n := Z.to_nat days in
      map (fun i => ((day_counter + Z.of_nat i)%Z, month, season_of month)) (seq 0 n)
      ++ calendar items' (day_counter + Z.of_nat n)%Z
  end.

Definition row_key (r : Row) : Z * string * string := (day r, month r, season r).

(** ** The generator on binary64 numbers

    The same loops once more, with every number a binary64 [float] and
    every operation rounded as the processor rounds it: the draws, the
    scaling of [np.random.uniform], the formulas of [Binary64] and
    Python's [round].  Statements that depend on the last digit of a
    stored number are made about this version. *)
Module Binary64Generator.

(** A (small) integer as a [float]; exact below 2^53. *)
Definition of_Z (n : Z) : PrimFloat.float :=
  if (n <? 0)%Z then PrimFloat.opp (PrimFloat.of_uint63 (Uint63.of_Z (- n)))
  else PrimFloat.of_uint63 (Uint63.of_Z n).

(** Python's [round(x, ndigits)] on a [float], for [ndigits] from 0 to 22:
    the decimal with [ndigits] places nearest to the exact value of [x]
    (ties to even), then the [float] nearest to that decimal.  The exact
    magnitude of [x] is [m * 2^e]; the nearest decimal is [n / 10^ndigits]
    with [n] an integer below 2^53, so the one rounded division returns the
    nearest [float].  From 2^53 / 10^ndigits upwards a [float] is its own
    rounding; zeros, infinities and NaN are returned as they are. *)
Definition round (x : PrimFloat.float) (ndigits : nat) : PrimFloat.float :=
  match FloatOps.Prim2SF x with
  | SpecFloat.S754_finite s m e =>
      let scaled :=
        inject_Z (Z.pos m) * Qpower 2 e * inject_Z (10 ^ Z.of_nat ndigits) in
      if Qle_bool (inject_Z (2 ^ 53)) scaled then x
      else
        let r :=
          PrimFloat.div (of_Z (round_half_even scaled))
            (of_Z (10 ^ Z.of_nat ndigits)) in
        if s then PrimFloat.opp r else r
  | _ => x
  end.

Definition calculator : Type :=
  PrimFloat.float -> PrimFloat.float -> PrimFloat.float -> PrimFloat.float ->
  PrimFloat.float -> PrimFloat.float.

Definition get_kwh_calculator (season : string) : option calculator :=
  if decide (season = "summer") then Some Binary64.calc_kwh_summer
  else if decide (season = "winter") then Some Binary64.calc_kwh_winter
  else if decide (season = "monsoon") then Some Binary64.calc_kwh_monsoon
  else None.

Record Row : Type := mkRow {
  day : Z;
  irradiance : PrimFloat.float;
  humidity : PrimFloat.float;
  wind_speed : PrimFloat.float;
  ambient_temperature : PrimFloat.float;
  tilt_angle : PrimFloat.float;
  kwh : PrimFloat.float;
  season : string;
  month : string
}.

(** [low + (high - low) * u], each operation rounded. *)
Definition uniform_value (range : Z * Z) (u : PrimFloat.float) : PrimFloat.float :=
  let (low, high) := range in
  PrimFloat.add (of_Z low) (PrimFloat.mul (PrimFloat.sub (of_Z high) (of_Z low)) u).

Section Generator.
Context {RandomState : Type}.
Variable random_sample : RandomState -> PrimFloat.float * RandomState.

#[local] Existing Instance M_ret.
#[local] Existing Instance M_bind.

Definition np_random_uniform (range : Z * Z) : @M RandomState PrimFloat.float := fun g =>
  let (u, g') := random_sample g in
  Ok (uniform_value range u, g').

Definition call (calc_kwh_func : option calculator)
    (irr hum wind temp tilt : PrimFloat.float) : @M RandomState PrimFloat.float :=
  match calc_kwh_func with
  | Some f => mret (f irr hum wind temp tilt)
  | None => lift (Raise TypeError)
  end.

Definition day_row (season month : string) (calc_kwh_func : option calculator)
    (day_counter : Z) : @M RandomState Row :=
  irr ← (r ← lift (feature_range season "irradiance"); np_random_uniform r);
  hum ← (r ← lift (feature_range season "humidity"); np_random_uniform r);
  wind ← (r ← lift (feature_range season "wind_speed"); np_random_uniform r);
  temp ← (r ← lift (feature_range season "ambient_temperature"); np_random_uniform r);
  tilt ← (r ← lift (feature_range season "tilt_angle"); np_random_uniform r);
  kwh ← call calc_kwh_func irr hum wind temp tilt;
  mret {| day := day_counter;
          irradiance := round irr 2;
          humidity := round hum 2;
          wind_speed := round wind 2;
          ambient_temperature := round temp 2;
          tilt_angle := round tilt 2;
          kwh := round kwh 2;
          season := season;
          month := month |}.

Fixpoint days_loop (days : nat) (season month : string)
    (calc_kwh_func : option calculator) (data : list Row) (day_counter : Z)
    : @M RandomState (list Row * Z) :=
  match days with
  | O => mret (data, day_counter)
  | S days' =>
      row ← day_row season month calc_kwh_func day_counter;
      days_loop days' season month calc_kwh_func (data ++ [row]) (day_counter + 1)%Z
  end.

Fixpoint months_loop (items : list (string * Z)) (data : list Row) (day_counter : Z)
    : @M RandomState (list Row * Z) :=
  match items with
  | [] => mret (data, day_counter)
  | (month, days) :: items' =>
      season ← lift (getitem month_to_season month);
      let calc_kwh_func := get_kwh_calculator season in
      '(data', day_counter') ←
        days_loop (Z.to_nat days) season month calc_kwh_func data day_counter;
      months_loop items' data' day_counter'
  end.

Definition generate_complete_year_data : @M RandomState (list Row) :=
  '(data, _) ← months_loop months_days [] 1%Z;
  mret data.

(** The state after [n] draws, and the [k]-th draw from a state. *)
Fixpoint advance (n : nat) (g : RandomState) : RandomState :=
  match n with
  | O => g
  | S n' => advance n' (snd (random_sample g))
  end.

Definition draw (k : nat) (g : RandomState) : PrimFloat.float :=
  fst (random_sample (advance k g)).
End Generator.

(** The five unrounded samples of a day. *)
Record Samples : Type := mkSamples {
  irr : PrimFloat.float; hum : PrimFloat.float; wind : PrimFloat.float;
  temp : PrimFloat.float; tilt : PrimFloat.float
}.

Definition samples_at {RandomState : Type}
    (random_sample : RandomState -> PrimFloat.float * RandomState)
    (season : string) (g : RandomState) : Samples :=
  {| irr := uniform_value (range_of season "irradiance") (draw random_sample 0 g);
     hum := uniform_value (range_of season "humidity") (draw random_sample 1 g);
     wind := uniform_value (range_of season "wind_speed") (draw random_sample 2 g);
     temp := uniform_value (range_of season "ambient_temperature")
               (draw random_sample 3 g);
     tilt := uniform_value (range_of season "tilt_angle") (draw random_sample 4 g) |}.

(** The stored numbers of [r] are the samples [x] and the yield [f] of
    them, each rounded to 2 places. *)
Definition stored_from (r : Row) (f : calculator) (x : Samples) : Prop :=
  irradiance r = round (irr x) 2
  /\ humidity r = round (hum x) 2
  /\ wind_speed r = round (wind x) 2
  /\ ambient_temperature r = round (temp x) 2
  /\ tilt_angle r = round (tilt x) 2
  /\ kwh r = round (f (irr x) (hum x) (wind x) (temp x) (tilt x)) 2.

Definition calculator_of (season : string) : calculator :=
  match get_kwh_calculator season with
  | Some f => f
  | None => fun _ _ _ _ _ => PrimFloat.zero
  end.

Definition row_of (season month : string) (day_counter : Z) (x : Samples) : Row :=
  {| day := day_counter;
     irradiance := round (irr x) 2;
     humidity := round (hum x) 2;
     wind_speed := round (wind x) 2;
     ambient_temperature := round (temp x) 2;
     tilt_angle := round (tilt x) 2;
     kwh := round (calculator_of season (irr x) (hum x) (wind x) (temp x) (tilt x)) 2;
     season := season;
     month := month |}.

Section Expected.
Context {RandomState : Type}.
Variable random_sample : RandomState -> PrimFloat.float * RandomState.

Fixpoint expected_days (days : nat) (season month : string) (day_counter : Z)
    (g : RandomState) : list Row :=
  match days with
  | O => []
  | S days' =>
      row_of season month day_counter (samples_at random_sample season g)
      :: expected_days days' season month (day_counter + 1)%Z
           (advance random_sample 5 g)
  end.

Fixpoint expected_months (items : list (string * Z)) (day_counter : Z)
    (g : RandomState) : list Row :=
  match items with
  | [] => []
  | (month, days) :: items' =>
      let n := Z.to_nat days in
      expected_days n (season_of month) month day_counter g
      ++ expected_months items' (day_counter + Z.of_nat n)%Z
           (advance random_sample (5 * n) g)
  end.
End Expected.

(** A generator that always answers one number. *)
Definition constant_sample (u : PrimFloat.float) (n : nat) : PrimFloat.float * nat :=
  (u, S n).

(** One that hands out the numbers of a list in turn, then zeros. *)
Definition list_sample (us : list PrimFloat.float) : PrimFloat.float * list PrimFloat.float :=
  match us with
  | [] => (PrimFloat.zero, [])
  | u :: us' => (u, us')
  end.

End Binary64Generator.

(** ** The sidebar filter *)

(** [series.isin(values)] at one row. *)
Definition isin (x : string) (values : list string) : bool :=
  bool_decide (x ∈ values).

(** [df[(df['season'].isin(selected_seasons)) & (df['month'].isin(selected_months))]]:
    a new frame with the rows whose mask is true, in their order. *)
Definition filtered_df (df : DataFrame) (selected_seasons selected_months : list string)
    : DataFrame :=
  List.filter
    (fun r => isin (season r) selected_seasons && isin (month r) selected_months)
    df.

(** The statement [filtered_df = df[...]] on the script's namespace (its
    data frames by name): it reads [df] and binds [filtered_df]. *)
Definition assign_filtered_df (selected_seasons selected_months : list string)
    (globals : gmap string DataFrame) : result (gmap string DataFrame) :=
  match globals !! "df" with
  | Some df =>
      Ok (<["filtered_df" := filtered_df df selected_seasons selected_months]> globals)
  | None => Raise (NameError "df")
  end.

(** ** A dashboard session *)

Section Session.
Context {RandomState : Type}.
Variable random_sample : RandomState -> Q * RandomState.

(** What outlives one run of the script: the store of [st.cache_data]
    for [load_solar_data] (which takes no argument, so one entry) and
    the state of [np.random]. *)
Record Session : Type := mkSession {
  cache : option DataFrame;
  np_random : RandomState
}.

(** Modelled from the spec: the decorator [st.cache_data] belongs to the
    Streamlit library and is not part of the source; the text describes
    it as memoization (the result is computed once and reused for the
    session's lifetime, so that later requests do not sample again).
    A call that finds a stored table returns it and does not run the
    body; a call that finds none runs the body and stores what it
    returns; a body that raises stores nothing. *)
Definition load_solar_data (s : Session) : result (DataFrame * Session) :=
  match cache s with
  | Some df => Ok (df, s)
  | None =>
      match generate_complete_year_data random_sample (np_random s) with
      | Ok (df, g') => Ok (df, {| cache := Some df; np_random := g' |})
      | Raise e => Raise e
      end
  end.

(** One run of the script for one choice in the two sidebar widgets, up
    to the filter: the namespace every chart and metric then reads. *)
Definition run_script (selected_seasons selected_months : list string) (s : Session)
    : result (gmap string DataFrame * Session) :=
  '(df, s') ← load_solar_data s;
  globals ← assign_filtered_df selected_seasons selected_months (<["df" := df]> ∅);
  mret (globals, s').

(** The script is run again from the top for every interaction. *)
Fixpoint reruns (requests : list (list string * list string)) (s : Session)
    : result (list (gmap string DataFrame) * Session) :=
  match requests with
  | [] => mret ([], s)
  | (selected_seasons, selected_months) :: requests' =>
      '(globals, s') ← run_script selected_seasons selected_months s;
      '(rest, s'') ← reruns requests' s';
      mret (globals :: rest, s'')
  end.
End Session.

Arguments Session : clear implicits.
Arguments mkSession {RandomState} cache np_random.

(** The namespace a run ends with when it read the table [t]. *)
Definition rendered (t : DataFrame) (request : list string * list string)
    : gmap string DataFrame :=
  <["filtered_df" := filtered_df t request.1 request.2]> (<["df" := t]> ∅).

(** ** Two generators to run the model on *)

(** Always one half; the state counts the draws made. *)
Definition half_sample (n : nat) : Q * nat := (0.5, S n).

(** Repeats the five draws that make a winter day sample irradiance 500,
    humidity 50, wind speed 3, temperature 12 and tilt 10. *)
Definition winter_scenario_sample (n : nat) : Q * nat :=
  (nth (n mod 5) [0.5; 0.5; 0.4; 7 # 15; 0] 0, S n).

(** ** The sidebar widgets *)

(** [series.unique()]: the distinct values, each at its first appearance. *)
Fixpoint unique_from (seen xs : list string) : list string :=
  match xs with
  | [] => []
  | x :: xs' =>
      if bool_decide (x ∈ seen) then unique_from seen xs'
      else x :: unique_from (x :: seen) xs'
  end.

Definition unique (xs : list string) : list string := unique_from [] xs.

(** What the two [multiselect] widgets return while the user has touched
    nothing: their [default], which is all of their [options]. *)
Definition default_seasons (df : DataFrame) : list string := unique (map season df).
Definition default_months (df : DataFrame) : list string := unique (map month df).

(** ** Column statistics

    A column is the list of its values.  [NaN], which pandas returns for the
    mean, maximum and minimum of an empty column and which every operation
    hands on, is [None]. *)

Definition series_sum (xs : list Q) : Q := foldr Qplus 0 xs.

Definition series_mean (xs : list Q) : option Q :=
  match xs with
  | [] => None
  | _ :: _ => Some (series_sum xs / inject_Z (Z.of_nat (length xs)))
  end.

Definition series_max (xs : list Q) : option Q :=
  match xs with
  | [] => None
  | x :: xs' => Some (foldl Qmax x xs')
  end.

Definition series_min (xs : list Q) : option Q :=
  match xs with
  | [] => None
  | x :: xs' => Some (foldl Qmin x xs')
  end.

Definition nan_sub (a b : option Q) : option Q :=
  match a, b with
  | Some x, Some y => Some (x - y)
  | _, _ => None
  end.

Definition nan_mul (a b : option Q) : option Q :=
  match a, b with
  | Some x, Some y => Some (x * y)
  | _, _ => None
  end.

(** The numbers behind the five [st.metric] cards, before they are
    formatted: each card's [value] and its [delta]. *)
Record KeyMetrics : Type := mkKeyMetrics {
  total_energy : Q;
  total_energy_delta : option Q;
  average_daily_output : option Q;
  average_daily_output_delta : option Q;
  peak_performance : option Q;
  peak_performance_delta : option Q;
  avg_irradiance : option Q;
  avg_irradiance_delta : option Q;
  avg_temperature : option Q;
  avg_temperature_delta : option Q
}.

Definition key_metrics (df filtered : DataFrame) : KeyMetrics :=
  {| total_energy := series_sum (map kwh filtered);
     total_energy_delta :=
       nan_sub (Some (series_sum (map kwh filtered)))
         (nan_mul (series_mean (map kwh df))
            (Some (inject_Z (Z.of_nat (length filtered)))));
     average_daily_output := series_mean (map kwh filtered);
     average_daily_output_delta :=
       nan_sub (series_mean (map kwh filtered)) (series_mean (map kwh df));
     peak_performance := series_max (map kwh filtered);
     peak_performance_delta :=
       nan_sub (series_max (map kwh filtered)) (series_min (map kwh filtered));
     avg_irradiance := series_mean (map irradiance filtered);
     avg_irradiance_delta :=
       nan_sub (series_mean (map irradiance filtered))
         (series_mean (map irradiance df));
     avg_temperature := series_mean (map ambient_temperature filtered);
     avg_temperature_delta :=
       nan_sub (series_mean (map ambient_temperature filtered))
         (series_mean (map ambient_temperature df)) |}.

(** ** Grouped means *)

(** Python's order on [str], for the group keys. *)
Definition string_le (a b : string) : Prop := String.leb a b = true.

#[global] Instance string_le_dec (a b : string) : Decision (string_le a b) :=
  decide (String.leb a b = true).

(** The keys of [groupby]: the distinct values of the column, sorted. *)
Definition group_keys (keys : list string) : list string :=
  merge_sort string_le (unique keys).

(** The rows of one group, in the order of the frame. *)
Definition group (key : Row -> string) (k : string) (df : DataFrame) : DataFrame :=
  List.filter (fun r => bool_decide (key r = k)) df.

(** [df.groupby(key)[value].mean().reset_index()]: one row per key. *)
Definition groupby_mean (key : Row -> string) (value : Row -> Q) (df : DataFrame)
    : list (string * option Q) :=
  map (fun k => (k, series_mean (map value (group key k df))))
    (group_keys (map key df)).

(** [seasonal_avg], the frame behind the bar chart by season. *)
Definition seasonal_avg (filtered : DataFrame) : list (string * option Q) :=
  groupby_mean season kwh filtered.

(** The number of days of the months of [months_days] that are selected
    and whose season is selected. *)
Definition selected_days (selected_seasons selected_months : list string) : nat :=
  total_days
    (List.filter
       (fun item => isin (season_of item.1) selected_seasons
                    && isin item.1 selected_months)
       months_days).

(** The band in which the stored yield of a row of each season lies. *)
Definition in_yield_band (r : Row) : Prop :=
  (season r = "summer" /\ 149.9 <= kwh r /\ kwh r <= 254.1)
  \/ (season r = "winter" /\ 51.91 <= kwh r /\ kwh r <= 126.79)
  \/ (season r = "monsoon" /\ 5.22 <= kwh r /\ kwh r <= 84.83).

(** Rounding again changes none of the six stored numbers of [r]. *)
Definition two_decimals (r : Row) : Prop :=
  round (irradiance r) 2 == irradiance r
  /\ round (humidity r) 2 == humidity r
  /\ round (wind_speed r) 2 == wind_speed r
  /\ round (ambient_temperature r) 2 == ambient_temperature r
  /\ round (tilt_angle r) 2 == tilt_angle r
  /\ round (kwh r) 2 == kwh r.

(** The sum, over the rows of a grouped-mean frame, of the mean times the
    number of rows of [df] in the group ([NaN] counting as 0). *)
Definition weighted_total (key : Row -> string) (df : DataFrame)
    (means : list (string * option Q)) : Q :=
  foldr (fun entry acc =>
           default 0 entry.2 * inject_Z (Z.of_nat (length (group key entry.1 df)))
           + acc)
    0 means.

(** ** The bar chart by month *)

Definition month_order : list string :=
  ["January"; "February"; "March"; "April"; "May"; "June";
   "July"; "August"; "September"; "October"; "November"; "December"].

(** The code [pd.Categorical] gives a value: its position among the
    categories, and [NaN] for a value that is none of them. *)
Definition category_code (categories : list string) (x : string) : option nat :=
  fst <$> list_find (fun c => c = x) categories.

(** The order of [sort_values] on codes: ascending, [NaN] last. *)
Definition code_le (a b : option nat) : Prop :=
  match a, b with
  | Some i, Some j => (i <= j)%nat
  | _, None => True
  | None, Some _ => False
  end.

#[global] Instance code_le_dec (a b : option nat) : Decision (code_le a b).
Proof. destruct a, b; simpl; apply _. Defined.

Definition month_le (e1 e2 : string * option Q) : Prop :=
  code_le (category_code month_order e1.1) (category_code month_order e2.1).

(** [monthly_avg]: the means by month, their [month] column turned into
    an ordered categorical, then the rows sorted on it.  Rows whose month
    is none of the categories tie at the end; their mutual order is the
    sorting routine's. *)
Definition monthly_avg (filtered : DataFrame) : list (string * option Q) :=
  merge_sort month_le (groupby_mean month kwh filtered).

(** A frame of two rows to run the cards on. *)
Definition two_days : DataFrame :=
  [ {| day := 1; irradiance := 500; humidity := 50; wind_speed := 3;
       ambient_temperature := 12; tilt_angle := 10; kwh := 89.1;
       season := "winter"; month := "January" |};
    {| day := 60; irradiance := 800; humidity := 30; wind_speed := 2;
       ambient_temperature := 38; tilt_angle := 30; kwh := 202.34;
       season := "summer"; month := "March" |} ].

(** * Proofs *)

(** ** The model at work *)

(** With every draw one half, day 1 is a winter day in the middle of every
    winter interval. *)
Example generate_half_sample_first_row :
  match generate_complete_year_data half_sample 0%nat with
  | Ok (t, _) => head t
  | Raise _ => None
  end
  = Some {| day := 1; irradiance := 500.00; humidity := 50.00;
            wind_speed := 3.50; ambient_temperature := 12.50;
            tilt_angle := 25.00; kwh := 89.45;
            season := "winter"; month := "January" |}.
Proof. vm_compute. reflexivity. Qed.

(** Day 200 is the 19th of July, a monsoon day. *)
Example generate_half_sample_day_200 :
  match generate_complete_year_data half_sample 0%nat with
  | Ok (t, _) => t !! 199%nat
  | Raise _ => None
  end
  = Some {| day := 200; irradiance := 350.00; humidity := 85.00;
            wind_speed := 5.00; ambient_temperature := 27.50;
            tilt_angle := 25.00; kwh := 45.22;
            season := "monsoon"; month := "July" |}.
Proof. vm_compute. reflexivity. Qed.

(** 1825 draws are made, five a day. *)
Example generate_half_sample_draws :
  match generate_complete_year_data half_sample 0%nat with
  | Ok (t, g') => Some (length t, g')
  | Raise _ => None
  end
  = Some (365%nat, 1825%nat).
Proof. vm_compute. reflexivity. Qed.

(** Ties go to the even neighbour, also below zero. *)
Example round_examples :
  round 89.105 2 == 89.1 /\ round 89.115 2 == 89.12
  /\ round (-0.125) 2 == -0.12 /\ round 89.4525 2 == 89.45.
Proof. repeat split; vm_compute; reflexivity. Qed.

(** A month missing from [month_to_season] is a [KeyError]. *)
Example months_loop_unknown_month :
  months_loop half_sample [("Smarch", 3%Z)] [] 1 0%nat = Raise (KeyError "Smarch").
Proof. vm_compute. reflexivity. Qed.

(** ** Rounding *)

Lemma round_half_even_near (x : Q) :
  x - (1 # 2) <= inject_Z (round_half_even x)
  /\ inject_Z (round_half_even x) <= x + (1 # 2).
Proof.
  unfold round_half_even.
  pose proof (Qfloor_le x) as Hlo.
  pose proof (Qlt_floor x) as Hhi.
  rewrite inject_Z_plus in Hhi.
  destruct (Qcompare_spec (x - inject_Z (Qfloor x)) (1 # 2)) as [He | Hl | Hg].
  - destruct (Z.even (Qfloor x)); rewrite ?inject_Z_plus;
      change (inject_Z 1) with 1 in *; split; lra.
  - change (inject_Z 1) with 1 in *. split; lra.
  - rewrite inject_Z_plus. change (inject_Z 1) with 1 in *. split; lra.
Qed.

Lemma round_half_even_ge (k : Z) (x : Q) :
  inject_Z k <= x -> (k <= round_half_even x)%Z.
Proof.
  intros Hk.
  assert (k <= Qfloor x)%Z as Hf.
  { rewrite <- (Qfloor_Z k). now apply Qfloor_resp_le. }
  unfold round_half_even.
  destruct (Qcompare (x - inject_Z (Qfloor x)) (1 # 2));
    [destruct (Z.even (Qfloor x)) | |]; lia.
Qed.

Lemma round_half_even_le (k : Z) (x : Q) :
  x <= inject_Z k -> (round_half_even x <= k)%Z.
Proof.
  intros Hk.
  assert (Qfloor x <= k)%Z as Hf.
  { rewrite <- (Qfloor_Z k). now apply Qfloor_resp_le. }
  destruct (Z.eq_dec (Qfloor x) k) as [He | Hne].
  - unfold round_half_even. rewrite He.
    destruct (Qcompare_spec (x - inject_Z k) (1 # 2)) as [H | H | H];
      [lra | lia | lra].
  - unfold round_half_even.
    destruct (Qcompare (x - inject_Z (Qfloor x)) (1 # 2));
      [destruct (Z.even (Qfloor x)) | |]; lia.
Qed.

Lemma round_2_unfold (x : Q) :
  round x 2 = inject_Z (round_half_even (x * 100)) * 0.01.
Proof. reflexivity. Qed.

(** Rounding to 2 places moves a number by at most 0.005. *)
Lemma round_2_near (x : Q) :
  x - 0.005 <= round x 2 /\ round x 2 <= x + 0.005.
Proof.
  rewrite round_2_unfold.
  destruct (round_half_even_near (x * 100)) as [Hlo Hhi].
  split; lra.
Qed.

(** Rounding to 2 places never crosses a multiple of 0.01. *)
Lemma round_2_ge_hundredths (k : Z) (x : Q) :
  inject_Z k * 0.01 <= x -> inject_Z k * 0.01 <= round x 2.
Proof.
  intros Hk. rewrite round_2_unfold.
  assert (k <= round_half_even (x * 100))%Z as Hr
    by (apply round_half_even_ge; lra).
  rewrite Zle_Qle in Hr. lra.
Qed.

Lemma round_2_le_hundredths (k : Z) (x : Q) :
  x <= inject_Z k * 0.01 -> round x 2 <= inject_Z k * 0.01.
Proof.
  intros Hk. rewrite round_2_unfold.
  assert (round_half_even (x * 100) <= k)%Z as Hr
    by (apply round_half_even_le; lra).
  rewrite Zle_Qle in Hr. lra.
Qed.

(** In particular it never leaves an interval with integer ends. *)
Lemma round_2_in_range (x : Q) (range : Z * Z) :
  in_range x range -> in_range (round x 2) range.
Proof.
  destruct range as [low high]. unfold in_range. simpl. intros [Hlo Hhi].
  assert (forall k, inject_Z k == inject_Z (k * 100) * 0.01) as Hscale.
  { intros k. rewrite inject_Z_mult. change (inject_Z 100) with 100. lra. }
  split.
  - rewrite (Hscale low). apply round_2_ge_hundredths.
    rewrite <- Hscale. exact Hlo.
  - rewrite (Hscale high). apply round_2_le_hundredths.
    rewrite <- Hscale. exact Hhi.
Qed.

(** A draw of [0, 1) scaled into an interval stays in it. *)
Lemma uniform_value_in_range (range : Z * Z) (u : Q) :
  (range.1 <= range.2)%Z -> 0 <= u -> u < 1 ->
  in_range (uniform_value range u) range.
Proof.
  destruct range as [low high]. unfold in_range, uniform_value. simpl.
  intros Hr H0 H1. rewrite Zle_Qle in Hr.
  split; nra.
Qed.

(** ** The constant tables, read off by evaluation *)

Lemma season_cases (P : string -> Prop) :
  P "summer" -> P "winter" -> P "monsoon" ->
  forall season, season ∈ seasons -> P season.
Proof.
  intros Hs Hw Hm season Hin. unfold seasons in Hin.
  repeat (apply elem_of_cons in Hin as [-> | Hin]; [assumption |]).
  inversion Hin.
Qed.

Lemma get_kwh_calculator_seasons :
  get_kwh_calculator "summer" = Some calc_kwh_summer
  /\ get_kwh_calculator "winter" = Some calc_kwh_winter
  /\ get_kwh_calculator "monsoon" = Some calc_kwh_monsoon.
Proof. repeat split. Qed.

(** A season has a calculator exactly when it is one of the three. *)
Lemma get_kwh_calculator_Some (season : string) (f : calculator) :
  get_kwh_calculator season = Some f -> season ∈ seasons.
Proof.
  unfold get_kwh_calculator, seasons.
  repeat (destruct (decide _) as [-> | _]; [set_solver |]).
  discriminate.
Qed.

Lemma get_kwh_calculator_of (season : string) :
  season ∈ seasons ->
  get_kwh_calculator season = Some (calculator_of season).
Proof. revert season. apply season_cases; reflexivity. Qed.

Ltac eval_feature_ranges :=
  repeat match goal with
  | |- context [feature_range ?s ?f] =>
      let v := eval vm_compute in (feature_range s f) in
      replace (feature_range s f) with v by (vm_compute; reflexivity)
  end.

Lemma range_of_ok (season field : string) :
  season ∈ seasons ->
  field ∈ fields ->
  feature_range season field = Ok (range_of season field)
  /\ ((range_of season field).1 <= (range_of season field).2)%Z.
Proof.
  intros Hs Hf. revert season Hs.
  repeat (apply elem_of_cons in Hf as [-> | Hf]);
    [| | | | | inversion Hf];
    apply season_cases; unfold range_of; eval_feature_ranges;
    (split; [reflexivity | simpl; lia]).
Qed.

(** ** The loops compute the expected table *)

Section Loops.
Context {RandomState : Type}.
Variable random_sample : RandomState -> Q * RandomState.

Lemma advance_add (a b : nat) (g : RandomState) :
  advance random_sample (a + b) g
  = advance random_sample b (advance random_sample a g).
Proof.
  revert g. induction a as [| a IH]; intros g; simpl; [reflexivity | apply IH].
Qed.

Lemma draw_advance (a k : nat) (g : RandomState) :
  draw random_sample k (advance random_sample a g)
  = draw random_sample (a + k) g.
Proof. unfold draw. now rewrite advance_add. Qed.

Lemma day_row_expected (season month : string) (day_counter : Z) (g : RandomState) :
  season ∈ seasons ->
  day_row random_sample season month (get_kwh_calculator season) day_counter g
  = Ok (row_of season month day_counter (samples_at random_sample season g),
        advance random_sample 5 g).
Proof.
  intros Hs.
  unfold day_row, row_of, samples_at, samples_of, apply_calculator.
  rewrite (get_kwh_calculator_of season Hs).
  rewrite (proj1 (range_of_ok season "irradiance" Hs ltac:(repeat constructor))).
  rewrite (proj1 (range_of_ok season "humidity" Hs ltac:(repeat constructor))).
  rewrite (proj1 (range_of_ok season "wind_speed" Hs ltac:(repeat constructor))).
  rewrite (proj1 (range_of_ok season "ambient_temperature" Hs ltac:(repeat constructor))).
  rewrite (proj1 (range_of_ok season "tilt_angle" Hs ltac:(repeat constructor))).
  unfold mbind, M_bind, mret, M_ret, lift, np_random_uniform, call, draw.
  simpl.
  repeat (destruct (random_sample _) as [? ?]; simpl).
  reflexivity.
Qed.

Lemma days_loop_expected (days : nat) (season month : string) (data : DataFrame)
    (day_counter : Z) (g : RandomState) :
  season ∈ seasons ->
  days_loop random_sample days season month (get_kwh_calculator season)
    data day_counter g
  = Ok ((data ++ expected_days random_sample days season month day_counter g,
         (day_counter + Z.of_nat days)%Z),
        advance random_sample (5 * days) g).
Proof.
  intros Hs. revert data day_counter g.
  induction days as [| days IH]; intros data day_counter g.
  - simpl. unfold mret, M_ret. now rewrite app_nil_r, Z.add_0_r.
  - cbn [days_loop expected_days]. unfold mbind, M_bind.
    rewrite (day_row_expected season month day_counter g Hs).
    fold (@mbind M (M_bind (RandomState := RandomState))).
    rewrite IH. rewrite <- app_assoc. simpl app.
    replace (5 * S days)%nat with (5 + 5 * days)%nat by lia.
    rewrite advance_add.
    do 3 f_equal. lia.
Qed.

Lemma months_loop_expected (items : list (string * Z)) (data : DataFrame)
    (day_counter : Z) (g : RandomState) :
  months_ok items ->
  months_loop random_sample items data day_counter g
  = Ok ((data ++ expected_months random_sample items day_counter g,
         (day_counter + Z.of_nat (total_days items))%Z),
        advance random_sample (5 * total_days items) g).
Proof.
  intros Hok. revert data day_counter g.
  induction Hok as [| [month days] items (season & Hm & Hs) _ IH];
    intros data day_counter g.
  - simpl. unfold mret, M_ret. now rewrite app_nil_r, Z.add_0_r.
  - cbn [months_loop expected_months total_days foldr fst snd] in *.
    unfold mbind at 1, M_bind at 1, lift, getitem.
    unfold season_of. rewrite Hm. cbn [default].
    unfold mbind at 1, M_bind at 1.
    rewrite (days_loop_expected _ season month data day_counter g Hs).
    rewrite IH. rewrite <- app_assoc.
    fold (total_days items).
    replace (5 * (Z.to_nat days + total_days items))%nat
      with (5 * Z.to_nat days + 5 * total_days items)%nat by lia.
    rewrite advance_add.
    do 3 f_equal. lia.
Qed.
End Loops.

Lemma months_days_ok : months_ok months_days.
Proof.
  unfold months_ok, months_days.
  repeat (apply Forall_cons; split;
    [ eexists; split; [vm_compute; reflexivity | set_solver] |]).
  apply Forall_nil. exact I.
Qed.

(** The generator never raises, and its table is the expected one. *)
Lemma generate_complete_year_data_expected {RandomState : Type}
    (random_sample : RandomState -> Q * RandomState) (g : RandomState) :
  generate_complete_year_data random_sample g
  = Ok (expected_months random_sample months_days 1 g,
        advance random_sample 1825 g).
Proof.
  unfold generate_complete_year_data, mbind, M_bind.
  rewrite (months_loop_expected random_sample months_days [] 1 g months_days_ok).
  reflexivity.
Qed.

(** ** The rows of the expected table *)

Section ExpectedRows.
Context {RandomState : Type}.
Variable random_sample : RandomState -> Q * RandomState.

Lemma length_expected_days days season month day_counter g :
  length (expected_days random_sample days season month day_counter g) = days.
Proof.
  revert day_counter g. induction days as [| days IH]; intros; simpl;
    [reflexivity | now rewrite IH].
Qed.

(** Row [i] of a month is built from draws [5 i .. 5 i + 4]. *)
Lemma expected_days_lookup days season month day_counter g (i : nat) (r : Row) :
  expected_days random_sample days season month day_counter g !! i = Some r ->
  r = row_of season month (day_counter + Z.of_nat i)
        (samples_at random_sample season (advance random_sample (5 * i) g)).
Proof.
  revert day_counter g i. induction days as [| days IH]; intros day_counter g i Hi.
  - discriminate.
  - destruct i as [| i]; simpl in Hi.
    + injection Hi as <-. simpl. now rewrite Z.add_0_r.
    + apply IH in Hi. subst r.
      replace (5 * S i)%nat with (5 + 5 * i)%nat by lia.
      rewrite advance_add. f_equal. lia.
Qed.

Lemma length_expected_months items day_counter g :
  length (expected_months random_sample items day_counter g) = total_days items.
Proof.
  revert day_counter g. induction items as [| [month days] items IH];
    intros; simpl; [reflexivity |].
  now rewrite length_app, length_expected_days, IH.
Qed.

(** Row [i] of the table is built from draws [5 i .. 5 i + 4], by the
    formula of the season of its month. *)
Lemma expected_months_lookup items day_counter g (i : nat) (r : Row) :
  months_ok items ->
  expected_months random_sample items day_counter g !! i = Some r ->
  exists season month,
    season ∈ seasons
    /\ month_to_season !! month = Some season
    /\ r = row_of season month (day_counter + Z.of_nat i)
             (samples_at random_sample season (advance random_sample (5 * i) g)).
Proof.
  intros Hok. revert day_counter g i.
  induction Hok as [| [month days] items (season & Hm & Hs) _ IH];
    intros day_counter g i Hi.
  - discriminate.
  - cbn [expected_months] in Hi. cbn [fst] in Hm.
    apply lookup_app_Some in Hi as [Hi | [Hlen Hi]].
    + exists season, month. split; [exact Hs |]. split; [exact Hm |].
      apply expected_days_lookup in Hi.
      unfold season_of in Hi. rewrite Hm in Hi. exact Hi.
    + rewrite length_expected_days in Hlen, Hi.
      apply IH in Hi as (season' & month' & Hs' & Hm' & ->).
      exists season', month'. split; [exact Hs' |]. split; [exact Hm' |].
      rewrite <- advance_add. f_equal; [lia |].
      do 2 f_equal. lia.
Qed.

Lemma expected_days_key days season month day_counter g :
  map row_key (expected_days random_sample days season month day_counter g)
  = map (fun i => ((day_counter + Z.of_nat i)%Z, month, season)) (seq 0 days).
Proof.
  revert day_counter g. induction days as [| days IH]; intros day_counter g.
  - reflexivity.
  - cbn [expected_days map seq]. rewrite IH, <- seq_shift, map_map.
    unfold row_key at 1. simpl. rewrite Z.add_0_r. f_equal.
    apply map_ext. intros i. do 2 f_equal. lia.
Qed.

(** Day numbers, months and seasons do not depend on the draws. *)
Lemma expected_months_key items day_counter g :
  map row_key (expected_months random_sample items day_counter g)
  = calendar items day_counter.
Proof.
  revert day_counter g. induction items as [| [month days] items IH];
    intros day_counter g.
  - reflexivity.
  - cbn [expected_months calendar]. now rewrite map_app, expected_days_key, IH.
Qed.
End ExpectedRows.

(** ** The calendar of the table, by evaluation *)

Lemma calendar_days : map (fun k => k.1.1) (calendar months_days 1) = seqZ 1 365.
Proof. vm_compute. reflexivity. Qed.

Lemma calendar_months :
  map (fun k => k.1.2) (calendar months_days 1)
  = flat_map (fun item => replicate (Z.to_nat item.2) item.1) months_days.
Proof. vm_compute. reflexivity. Qed.

Lemma calendar_months_seasons :
  Forall (fun k => month_to_season !! k.1.2 = Some k.2
                   /\ month_of_day months_days k.1.1 = Some k.1.2)
    (calendar months_days 1).
Proof. apply (bool_decide_unpack _). vm_compute. exact I. Qed.

Lemma expected_months_days {RandomState : Type}
    (random_sample : RandomState -> Q * RandomState) (g : RandomState) :
  map day (expected_months random_sample months_days 1 g) = seqZ 1 365.
Proof.
  rewrite <- calendar_days, <- (expected_months_key random_sample months_days 1 g).
  rewrite map_map. reflexivity.
Qed.

(** C2: whatever the generator state, generation returns a table of
    exactly 365 rows; its [day] column is 1, 2, ..., 365 in this order (so
    row [i], counted from 0, has day [i + 1], and no day repeats); and its
    [month] column is January 31 times, then February 28 times, and so on
    to December, the order of [months_days]. *)
Theorem generate_365_rows_days_in_order {RandomState : Type}
    (random_sample : RandomState -> Q * RandomState) (g : RandomState) :
  exists (t : DataFrame) (g' : RandomState),
    generate_complete_year_data random_sample g = Ok (t, g')
    /\ length t = 365%nat
    /\ map day t = seqZ 1 365
    /\ NoDup (map day t)
    /\ (forall (i : nat) (r : Row), t !! i = Some r -> day r = (Z.of_nat i + 1)%Z)
    /\ map month t
       = flat_map (fun item => replicate (Z.to_nat item.2) item.1) months_days.
Proof.
  exists (expected_months random_sample months_days 1 g),
         (advance random_sample 1825 g).
  pose proof (expected_months_key random_sample months_days 1 g) as Hkey.
  pose proof (expected_months_days random_sample g) as Hday.
  split; [apply generate_complete_year_data_expected |].
  split; [apply length_expected_months |].
  split; [exact Hday |].
  split; [rewrite Hday; apply NoDup_seqZ |].
  split.
  - intros i r Hi.
    assert (map day (expected_months random_sample months_days 1 g) !! i
            = Some (day r)) as Hd
      by (rewrite list_lookup_fmap, Hi; reflexivity).
    rewrite Hday in Hd. apply lookup_seqZ in Hd. lia.
  - rewrite <- calendar_months, <- Hkey, map_map. reflexivity.
Qed.

(** C3: in every generated table, each row's season is what
    [month_to_season] gives for the row's month, and the row's month is the
    one its day number falls in when the month lengths of [months_days] are
    laid end to end.  The mapping sends January, February, November and
    December to winter, March to June to summer and July to October to
    monsoon, and has no other entry; the lengths are 31, 28, 31, 30, 31,
    30, 31, 31, 30, 31, 30, 31 and add up to 365. *)
Theorem season_and_month_follow_the_tables {RandomState : Type}
    (random_sample : RandomState -> Q * RandomState) (g : RandomState) :
  exists (t : DataFrame) (g' : RandomState),
    generate_complete_year_data random_sample g = Ok (t, g')
    /\ Forall (fun r => month_to_season !! month r = Some (season r)
                        /\ month_of_day months_days (day r) = Some (month r)) t
    /\ Forall (fun m => month_to_season !! m = Some "winter")
         ["January"; "February"; "November"; "December"]
    /\ Forall (fun m => month_to_season !! m = Some "summer")
         ["March"; "April"; "May"; "June"]
    /\ Forall (fun m => month_to_season !! m = Some "monsoon")
         ["July"; "August"; "September"; "October"]
    /\ size month_to_season = 12%nat
    /\ months_days
       = [("January", 31); ("February", 28); ("March", 31); ("April", 30);
          ("May", 31); ("June", 30); ("July", 31); ("August", 31);
          ("September", 30); ("October", 31); ("November", 30);
          ("December", 31)]%Z
    /\ total_days months_days = 365%nat.
Proof.
  exists (expected_months random_sample months_days 1 g),
         (advance random_sample 1825 g).
  split; [apply generate_complete_year_data_expected |].
  split.
  - pose proof calendar_months_seasons as Hcal.
    rewrite <- (expected_months_key random_sample months_days 1 g) in Hcal.
    rewrite Forall_fmap in Hcal. exact Hcal.
  - repeat split; try (apply (bool_decide_unpack _); vm_compute; exact I).
Qed.

(** ** One row: ranges *)

Lemma in_feature_range_uniform (season field : string) (u : Q) :
  season ∈ seasons -> field ∈ fields -> 0 <= u -> u < 1 ->
  in_feature_range season field (uniform_value (range_of season field) u).
Proof.
  intros Hs Hf H0 H1. destruct (range_of_ok season field Hs Hf) as [Hr Hle].
  exists (range_of season field). split; [exact Hr |].
  now apply uniform_value_in_range.
Qed.

Lemma in_feature_range_round (season field : string) (x : Q) :
  in_feature_range season field x -> in_feature_range season field (round x 2).
Proof.
  intros (range & Hr & Hx). exists range. split; [exact Hr |].
  now apply round_2_in_range.
Qed.

Ltac eval_in_feature_range H :=
  let range := fresh "range" in
  let Hr := fresh "Hr" in
  destruct H as (range & Hr & H);
  vm_compute in Hr; injection Hr as <-;
  unfold in_range in H; cbn [fst snd] in H; unfold inject_Z in H.

(** The intervals of [feature_ranges] are the listed ones. *)
Lemma within_listed_ranges_of (r : Row) :
  within_feature_ranges r -> season r ∈ seasons -> within_listed_ranges r.
Proof.
  destruct r as [d i h w t a k s m]. unfold within_feature_ranges, within_listed_ranges.
  cbn [season irradiance humidity wind_speed ambient_temperature tilt_angle].
  intros (Hi & Hh & Hw & Ht & Ha) Hs. revert s Hs Hi Hh Hw Ht Ha.
  refine (season_cases _ _ _ _); intros Hi Hh Hw Ht Ha;
    eval_in_feature_range Hi; eval_in_feature_range Hh; eval_in_feature_range Hw;
    eval_in_feature_range Ht; eval_in_feature_range Ha;
    [left | right; left | right; right]; repeat split; tauto.
Qed.

Section RowFacts.
Context {RandomState : Type}.
Variable random_sample : RandomState -> Q * RandomState.
Hypothesis random_sample_range :
  forall g, 0 <= fst (random_sample g) /\ fst (random_sample g) < 1.

Lemma samples_at_in_range (season : string) (g : RandomState) :
  season ∈ seasons -> samples_in_range season (samples_at random_sample season g).
Proof.
  intros Hs. unfold samples_in_range, samples_at, samples_of, draw.
  cbn [irr hum wind temp tilt].
  repeat split; apply in_feature_range_uniform;
    solve [exact Hs | repeat constructor | apply random_sample_range].
Qed.
End RowFacts.

Lemma row_of_within_feature_ranges (s m : string) (day_counter : Z) (x : Samples) :
  samples_in_range s x ->
  within_feature_ranges (row_of s m day_counter x).
Proof.
  intros (Hi & Hh & Hw & Ht & Ha). unfold within_feature_ranges, row_of.
  cbn [season irradiance humidity wind_speed ambient_temperature tilt_angle].
  repeat split; now apply in_feature_range_round.
Qed.

(** A property of every row built by the loops holds of every row of the
    generated table. *)
Lemma generated_rows_Forall {RandomState : Type}
    (random_sample : RandomState -> Q * RandomState) (P : Row -> Prop) :
  (forall s m day_counter g,
     s ∈ seasons -> month_to_season !! m = Some s ->
     P (row_of s m day_counter (samples_at random_sample s g))) ->
  forall g, exists (t : DataFrame) (g' : RandomState),
    generate_complete_year_data random_sample g = Ok (t, g') /\ Forall P t.
Proof.
  intros HP g.
  exists (expected_months random_sample months_days 1 g),
         (advance random_sample 1825 g).
  split; [apply generate_complete_year_data_expected |].
  apply Forall_lookup. intros i r Hi.
  apply (expected_months_lookup _ _ _ _ _ _ months_days_ok) in Hi
    as (s & m & Hs & Hm & ->).
  now apply HP.
Qed.

(** C4: when every draw of the generator is a number of [0, 1), each of
    the five environmental fields of each generated row, as stored (that
    is, after rounding to 2 places), lies in the closed interval that
    [feature_ranges] gives for the row's season and that field; and these
    intervals are the listed ones: summer irradiance [600, 1000], humidity
    [10, 50], wind speed [0, 5], temperature [30, 45]; winter [300, 700],
    [30, 70], [1, 6], [5, 20]; monsoon [100, 600], [70, 100], [2, 8],
    [20, 35]; tilt angle [10, 40] in every season. *)
Theorem stored_fields_within_season_ranges {RandomState : Type}
    (random_sample : RandomState -> Q * RandomState)
    (random_sample_range :
       forall g, 0 <= fst (random_sample g) /\ fst (random_sample g) < 1)
    (g : RandomState) :
  exists (t : DataFrame) (g' : RandomState),
    generate_complete_year_data random_sample g = Ok (t, g')
    /\ Forall (fun r => within_feature_ranges r /\ within_listed_ranges r) t.
Proof.
  apply generated_rows_Forall. intros s m day_counter g0 Hs Hm.
  assert (within_feature_ranges
            (row_of s m day_counter (samples_at random_sample s g0))) as Hw.
  { apply row_of_within_feature_ranges.
    now apply samples_at_in_range. }
  split; [exact Hw |].
  apply within_listed_ranges_of; [exact Hw | exact Hs].
Qed.

(** C4 at the generator that always draws one half. *)
Lemma stored_fields_within_season_ranges_witness :
  exists (t : DataFrame) (g' : nat),
    generate_complete_year_data half_sample 0%nat = Ok (t, g')
    /\ Forall (fun r => within_feature_ranges r /\ within_listed_ranges r) t.
Proof.
  apply (stored_fields_within_season_ranges half_sample).
  intros g. simpl. split; lra.
Defined.

(** ** One row: the yield recomputed from the stored fields *)

(** The two facts about [Qabs t] that linear arithmetic needs. *)
Lemma Qabs_cases (t : Q) :
  (0 <= t /\ Qabs t == t) \/ (t <= 0 /\ Qabs t == - t).
Proof.
  destruct (Qlt_le_dec t 0) as [H | H].
  - right. split; [lra | apply Qabs_neg; lra].
  - left. split; [exact H | now apply Qabs_pos].
Qed.

Ltac split_Qabs t :=
  let H := fresh "Habs" in
  destruct (Qabs_cases t) as [[? H] | [? H]];
  revert H; generalize (Qabs t); intros ? H.

(** Each formula moves by at most 0.00225 when each of its five arguments
    moves by at most 0.005: the coefficients add up to 0.45 at most. *)
Lemma calculator_of_near (s : string) (i h w t a i' h' w' t' a' : Q) :
  s ∈ seasons ->
  i - 0.005 <= i' /\ i' <= i + 0.005 ->
  h - 0.005 <= h' /\ h' <= h + 0.005 ->
  w - 0.005 <= w' /\ w' <= w + 0.005 ->
  t - 0.005 <= t' /\ t' <= t + 0.005 ->
  a - 0.005 <= a' /\ a' <= a + 0.005 ->
  calculator_of s i h w t a - 0.00225 <= calculator_of s i' h' w' t' a'
  /\ calculator_of s i' h' w' t' a' <= calculator_of s i h w t a + 0.00225.
Proof.
  intros Hs [Hi1 Hi2] [Hh1 Hh2] [Hw1 Hw2] [Ht1 Ht2] [Ha1 Ha2].
  revert s Hs.
  refine (season_cases _ _ _ _);
    change (calculator_of "summer") with calc_kwh_summer;
    change (calculator_of "winter") with calc_kwh_winter;
    change (calculator_of "monsoon") with calc_kwh_monsoon;
    unfold calc_kwh_summer, calc_kwh_winter, calc_kwh_monsoon;
    split_Qabs (a - 30); split_Qabs (a' - 30); split; lra.
Qed.

(** The stored yield is within 0.00725 of the formula applied to the
    stored fields. *)
Lemma row_of_recomputed_kwh (s m : string) (day_counter : Z) (x : Samples) :
  s ∈ seasons ->
  Qabs (recomputed_kwh (calculator_of s) (row_of s m day_counter x)
        - kwh (row_of s m day_counter x)) <= 0.00725.
Proof.
  intros Hs. destruct x as [i h w t a].
  unfold recomputed_kwh, row_of, apply_calculator.
  cbn [irr hum wind temp tilt irradiance humidity wind_speed
       ambient_temperature tilt_angle kwh].
  pose proof (calculator_of_near s i h w t a _ _ _ _ _ Hs
                (round_2_near i) (round_2_near h) (round_2_near w)
                (round_2_near t) (round_2_near a)) as [Hlo Hhi].
  pose proof (round_2_near (calculator_of s i h w t a)) as [Hklo Hkhi].
  apply Qabs_Qle_condition. split; lra.
Qed.

(** C5: in every generated table, for each row, the formula of the row's
    season applied to the row's five stored fields (each rounded to 2
    places) differs from the stored [kwh] (the formula applied to the
    unrounded samples, then rounded to 2 places) by at most 0.01; in fact
    by at most 0.00725. *)
Theorem recomputed_kwh_within_tolerance {RandomState : Type}
    (random_sample : RandomState -> Q * RandomState) (g : RandomState) :
  exists (t : DataFrame) (g' : RandomState),
    generate_complete_year_data random_sample g = Ok (t, g')
    /\ Forall (fun r => exists f,
                 get_kwh_calculator (season r) = Some f
                 /\ Qabs (recomputed_kwh f r - kwh r) <= 0.00725
                 /\ Qabs (recomputed_kwh f r - kwh r) <= 0.01) t.
Proof.
  apply generated_rows_Forall. intros s m day_counter g0 Hs Hm.
  exists (calculator_of s). split; [now apply get_kwh_calculator_of |].
  pose proof (row_of_recomputed_kwh s m day_counter
                (samples_at random_sample s g0) Hs) as H.
  split; [exact H | lra].
Qed.

(** ** The binary64 loops compute the expected table *)

Lemma binary64_get_kwh_calculator_of (s : string) :
  s ∈ seasons ->
  Binary64Generator.get_kwh_calculator s = Some (Binary64Generator.calculator_of s).
Proof. revert s. apply season_cases; reflexivity. Qed.

Section Binary64Loops.
Context {RandomState : Type}.
Variable random_sample : RandomState -> PrimFloat.float * RandomState.

Lemma binary64_advance_add (a b : nat) (g : RandomState) :
  Binary64Generator.advance random_sample (a + b) g
  = Binary64Generator.advance random_sample b
      (Binary64Generator.advance random_sample a g).
Proof.
  revert g. induction a as [| a IH]; intros g; simpl; [reflexivity | apply IH].
Qed.

Lemma binary64_day_row_expected (s m : string) (day_counter : Z) (g : RandomState) :
  s ∈ seasons ->
  Binary64Generator.day_row random_sample s m
    (Binary64Generator.get_kwh_calculator s) day_counter g
  = Ok (Binary64Generator.row_of s m day_counter
          (Binary64Generator.samples_at random_sample s g),
        Binary64Generator.advance random_sample 5 g).
Proof.
  intros Hs.
  unfold Binary64Generator.day_row, Binary64Generator.row_of,
    Binary64Generator.samples_at.
  rewrite (binary64_get_kwh_calculator_of s Hs).
  rewrite (proj1 (range_of_ok s "irradiance" Hs ltac:(repeat constructor))).
  rewrite (proj1 (range_of_ok s "humidity" Hs ltac:(repeat constructor))).
  rewrite (proj1 (range_of_ok s "wind_speed" Hs ltac:(repeat constructor))).
  rewrite (proj1 (range_of_ok s "ambient_temperature" Hs ltac:(repeat constructor))).
  rewrite (proj1 (range_of_ok s "tilt_angle" Hs ltac:(repeat constructor))).
  unfold mbind, M_bind, mret, M_ret, lift, Binary64Generator.np_random_uniform,
    Binary64Generator.call, Binary64Generator.draw.
  simpl.
  repeat (destruct (random_sample _) as [? ?]; simpl).
  reflexivity.
Qed.

Lemma binary64_days_loop_expected (days : nat) (s m : string)
    (data : list Binary64Generator.Row) (day_counter : Z) (g : RandomState) :
  s ∈ seasons ->
  Binary64Generator.days_loop random_sample days s m
    (Binary64Generator.get_kwh_calculator s) data day_counter g
  = Ok ((data ++ Binary64Generator.expected_days random_sample days s m day_counter g,
         (day_counter + Z.of_nat days)%Z),
        Binary64Generator.advance random_sample (5 * days) g).
Proof.
  intros Hs. revert data day_counter g.
  induction days as [| days IH]; intros data day_counter g.
  - simpl. unfold mret, M_ret. now rewrite app_nil_r, Z.add_0_r.
  - cbn [Binary64Generator.days_loop Binary64Generator.expected_days].
    unfold mbind, M_bind.
    rewrite (binary64_day_row_expected s m day_counter g Hs).
    fold (@mbind M (M_bind (RandomState := RandomState))).
    rewrite IH. rewrite <- app_assoc. simpl app.
    replace (5 * S days)%nat with (5 + 5 * days)%nat by lia.
    rewrite binary64_advance_add.
    do 3 f_equal. lia.
Qed.

Lemma binary64_months_loop_expected (items : list (string * Z))
    (data : list Binary64Generator.Row) (day_counter : Z) (g : RandomState) :
  months_ok items ->
  Binary64Generator.months_loop random_sample items data day_counter g
  = Ok ((data ++ Binary64Generator.expected_months random_sample items day_counter g,
         (day_counter + Z.of_nat (total_days items))%Z),
        Binary64Generator.advance random_sample (5 * total_days items) g).
Proof.
  intros Hok. revert data day_counter g.
  induction Hok as [| [m days] items (s & Hm & Hs) _ IH];
    intros data day_counter g.
  - simpl. unfold mret, M_ret. now rewrite app_nil_r, Z.add_0_r.
  - cbn [Binary64Generator.months_loop Binary64Generator.expected_months
         total_days foldr fst snd] in *.
    unfold mbind at 1, M_bind at 1, lift, getitem.
    unfold season_of. rewrite Hm. cbn [default].
    unfold mbind at 1, M_bind at 1.
    rewrite (binary64_days_loop_expected _ s m data day_counter g Hs).
    rewrite IH. rewrite <- app_assoc.
    fold (total_days items).
    replace (5 * (Z.to_nat days + total_days items))%nat
      with (5 * Z.to_nat days + 5 * total_days items)%nat by lia.
    rewrite binary64_advance_add.
    do 3 f_equal. lia.
Qed.

Lemma binary64_generate_expected (g : RandomState) :
  Binary64Generator.generate_complete_year_data random_sample g
  = Ok (Binary64Generator.expected_months random_sample months_days 1 g,
        Binary64Generator.advance random_sample 1825 g).
Proof.
  unfold Binary64Generator.generate_complete_year_data, mbind, M_bind.
  rewrite (binary64_months_loop_expected months_days [] 1 g months_days_ok).
  reflexivity.
Qed.

Lemma binary64_length_expected_days days s m day_counter g :
  length (Binary64Generator.expected_days random_sample days s m day_counter g) = days.
Proof.
  revert day_counter g. induction days as [| days IH]; intros; simpl;
    [reflexivity | now rewrite IH].
Qed.

Lemma binary64_expected_days_lookup days s m day_counter g (i : nat)
    (r : Binary64Generator.Row) :
  Binary64Generator.expected_days random_sample days s m day_counter g !! i = Some r ->
  r = Binary64Generator.row_of s m (day_counter + Z.of_nat i)
        (Binary64Generator.samples_at random_sample s
           (Binary64Generator.advance random_sample (5 * i) g)).
Proof.
  revert day_counter g i. induction days as [| days IH]; intros day_counter g i Hi.
  - discriminate.
  - destruct i as [| i]; simpl in Hi.
    + injection Hi as <-. simpl. now rewrite Z.add_0_r.
    + apply IH in Hi. subst r.
      replace (5 * S i)%nat with (5 + 5 * i)%nat by lia.
      rewrite binary64_advance_add. f_equal. lia.
Qed.

Lemma binary64_length_expected_months items day_counter g :
  length (Binary64Generator.expected_months random_sample items day_counter g)
  = total_days items.
Proof.
  revert day_counter g. induction items as [| [m days] items IH];
    intros; simpl; [reflexivity |].
  now rewrite length_app, binary64_length_expected_days, IH.
Qed.

Lemma binary64_expected_months_lookup items day_counter g (i : nat)
    (r : Binary64Generator.Row) :
  months_ok items ->
  Binary64Generator.expected_months random_sample items day_counter g !! i = Some r ->
  exists s m,
    s ∈ seasons
    /\ month_to_season !! m = Some s
    /\ r = Binary64Generator.row_of s m (day_counter + Z.of_nat i)
             (Binary64Generator.samples_at random_sample s
                (Binary64Generator.advance random_sample (5 * i) g)).
Proof.
  intros Hok. revert day_counter g i.
  induction Hok as [| [m days] items (s & Hm & Hs) _ IH];
    intros day_counter g i Hi.
  - discriminate.
  - cbn [Binary64Generator.expected_months] in Hi. cbn [fst] in Hm.
    apply lookup_app_Some in Hi as [Hi | [Hlen Hi]].
    + exists s, m. split; [exact Hs |]. split; [exact Hm |].
      apply binary64_expected_days_lookup in Hi.
      unfold season_of in Hi. rewrite Hm in Hi. exact Hi.
    + rewrite binary64_length_expected_days in Hlen, Hi.
      apply IH in Hi as (s' & m' & Hs' & Hm' & ->).
      exists s', m'. split; [exact Hs' |]. split; [exact Hm' |].
      rewrite <- binary64_advance_add. f_equal; [lia |].
      do 2 f_equal. lia.
Qed.

(** Every row of the binary64 table stores its samples and their yield,
    rounded. *)
Lemma binary64_rows_stored (g : RandomState) (i : nat) (r : Binary64Generator.Row) :
  Binary64Generator.expected_months random_sample months_days 1 g !! i = Some r ->
  exists f,
    Binary64Generator.get_kwh_calculator (Binary64Generator.season r) = Some f
    /\ Binary64Generator.stored_from r f
         (Binary64Generator.samples_at random_sample (Binary64Generator.season r)
            (Binary64Generator.advance random_sample (5 * i) g)).
Proof.
  intros Hi.
  apply (binary64_expected_months_lookup _ _ _ _ _ months_days_ok) in Hi
    as (s & m & Hs & Hm & ->).
  exists (Binary64Generator.calculator_of s).
  cbn [Binary64Generator.season Binary64Generator.row_of].
  split; [now apply binary64_get_kwh_calculator_of |].
  unfold Binary64Generator.stored_from, Binary64Generator.row_of.
  cbn [Binary64Generator.irradiance Binary64Generator.humidity
       Binary64Generator.wind_speed Binary64Generator.ambient_temperature
       Binary64Generator.tilt_angle Binary64Generator.kwh].
  repeat split.
Qed.
End Binary64Loops.

(** ** The stored yield and the formulas *)

(** The first row of the table that [winter_scenario_sample] produces. *)
Lemma winter_scenario_first_row :
  expected_months winter_scenario_sample months_days 1 0%nat !! 0%nat
  = Some (row_of "winter" "January" 1
            (samples_at winter_scenario_sample "winter" 0%nat)).
Proof. vm_compute. reflexivity. Qed.

(** C1, refuted as stated: with a generator whose first five draws are
    0.5, 0.5, 0.4, 7/15 and 0, the first day (a winter day) samples
    irradiance 500, humidity 50, wind speed 3, temperature 12 and tilt 10;
    the winter formula gives 89.105 there, but the row stores 89.1, the
    value rounded to 2 places.  So the stored [kwh] is not the value of
    the formula at the sampled values. *)
Lemma stored_kwh_is_not_the_formula_value :
  ~ (forall (t : DataFrame) (g' : nat) (i : nat) (r : Row),
       generate_complete_year_data winter_scenario_sample 0%nat = Ok (t, g') ->
       t !! i = Some r ->
       stored_kwh_is_formula_value r
         (samples_at winter_scenario_sample (season r)
            (advance winter_scenario_sample (5 * i) 0%nat))).
Proof.
  intros H.
  specialize (H _ _ 0%nat _
                (generate_complete_year_data_expected winter_scenario_sample 0%nat)
                winter_scenario_first_row).
  destruct H as (f & Hf & Hk).
  cbn [season row_of] in Hf. injection Hf as <-.
  vm_compute in Hk. discriminate Hk.
Qed.

Section Binary64Statements.
Import PrimFloat.
#[local] Set Warnings "-inexact-float".

(** The binary64 generator at the reviewer-style tie: the draw
    3828059683264922 / 2^53 scaled into the summer wind interval [0, 5]
    is exactly 2.125 and is stored as 2.12, and the winter day of the
    worked example stores 89.1. *)
Example binary64_round_at_ties :
  Binary64Generator.round
    (Binary64Generator.uniform_value (0, 5)%Z
       (of_uint63 (Uint63.of_Z 3828059683264922) * 0x1p-53)%float) 2
  = 2.12%float
  /\ Binary64Generator.round 2.675%float 2 = 2.67%float
  /\ Binary64Generator.round (-0.125)%float 2 = (-0.12)%float
  /\ Binary64Generator.round (-0.001)%float 2 = (-0.0)%float
  /\ Binary64Generator.round 89.10499999999999%float 2 = 89.1%float.
Proof. repeat split; vm_compute; reflexivity. Qed.

(** C1, amended: in every table that the generator builds on binary64
    numbers, whatever the stream of draws, row [i] (from 0) was built from
    the five samples that draws [5 i] to [5 i + 4] scale into the ranges of
    the row's season; its five stored fields are these samples rounded to
    2 places, and its stored [kwh] is the value of the season's formula at
    the unrounded samples, rounded to 2 places.  The formulas are the
    three linear combinations of the text, each operation rounded to
    binary64, dispatched by season.  The summer formula at
    (800, 30, 2, 38, 30) is the float 202.34, stored as 202.34; the winter
    formula at (500, 50, 3, 12, 10) is 89.10499999999999, one unit in the
    last place (2^-46) below the float 89.105, and is stored as 89.1.  In
    exact arithmetic the two values are 202.34 and 89.105. *)
Theorem stored_kwh_is_the_rounded_formula_value {RandomState : Type}
    (random_sample : RandomState -> float * RandomState) (g : RandomState) :
  (exists (t : list Binary64Generator.Row) (g' : RandomState),
     Binary64Generator.generate_complete_year_data random_sample g = Ok (t, g')
     /\ length t = 365%nat
     /\ forall (i : nat) (r : Binary64Generator.Row), t !! i = Some r ->
          exists f,
            Binary64Generator.get_kwh_calculator (Binary64Generator.season r) = Some f
            /\ Binary64Generator.stored_from r f
                 (Binary64Generator.samples_at random_sample
                    (Binary64Generator.season r)
                    (Binary64Generator.advance random_sample (5 * i) g)))
  /\ (forall i h w t a : float,
        Binary64.calc_kwh_summer i h w t a
        = (0.25 * i - 0.05 * h + 0.02 * w + 0.1 * t - 0.03 * abs (a - 30))%float)
  /\ (forall i h w t a : float,
        Binary64.calc_kwh_winter i h w t a
        = (0.18 * i - 0.03 * h + 0.015 * w + 0.08 * t - 0.02 * abs (a - 30))%float)
  /\ (forall i h w t a : float,
        Binary64.calc_kwh_monsoon i h w t a
        = (0.15 * i - 0.1 * h + 0.01 * w + 0.05 * t - 0.04 * abs (a - 30))%float)
  /\ Binary64Generator.get_kwh_calculator "summer" = Some Binary64.calc_kwh_summer
  /\ Binary64Generator.get_kwh_calculator "winter" = Some Binary64.calc_kwh_winter
  /\ Binary64Generator.get_kwh_calculator "monsoon" = Some Binary64.calc_kwh_monsoon
  /\ Binary64.summer_example = 202.34%float
  /\ Binary64Generator.round Binary64.summer_example 2 = 202.34%float
  /\ Binary64.winter_example = 89.10499999999999%float
  /\ Binary64.winter_example_is_89_105 = false
  /\ Binary64.winter_example_gap_is_one_ulp = true
  /\ Binary64Generator.round Binary64.winter_example 2 = 89.1%float
  /\ (calc_kwh_summer 800 30 2 38 30 == 202.34)%Q
  /\ (calc_kwh_winter 500 50 3 12 10 == 89.105)%Q.
Proof.
  split.
  { exists (Binary64Generator.expected_months random_sample months_days 1 g),
           (Binary64Generator.advance random_sample 1825 g).
    split; [apply binary64_generate_expected |].
    split; [apply binary64_length_expected_months |].
    intros i r Hi. now apply binary64_rows_stored. }
  repeat split; vm_compute; reflexivity.
Qed.
End Binary64Statements.

(** ** The sign of the yield *)

(** The least value of each formula over its season's intervals. *)
Lemma calculator_lower_bounds (x : Samples) :
  (samples_in_range "summer" x -> 149.9 <= apply_calculator calc_kwh_summer x)
  /\ (samples_in_range "winter" x -> 51.915 <= apply_calculator calc_kwh_winter x)
  /\ (samples_in_range "monsoon" x -> 5.22 <= apply_calculator calc_kwh_monsoon x).
Proof.
  destruct x as [i h w t a].
  unfold samples_in_range, apply_calculator,
    calc_kwh_summer, calc_kwh_winter, calc_kwh_monsoon.
  cbn [irr hum wind temp tilt].
  repeat split; intros (Hi & Hh & Hw & Ht & Ha);
    eval_in_feature_range Hi; eval_in_feature_range Hh; eval_in_feature_range Hw;
    eval_in_feature_range Ht; eval_in_feature_range Ha;
    split_Qabs (a - 30); lra.
Qed.

Lemma calculator_of_lower_bound (s : string) (x : Samples) :
  s ∈ seasons -> samples_in_range s x ->
  5.22 <= apply_calculator (calculator_of s) x.
Proof.
  intros Hs. revert s Hs.
  destruct (calculator_lower_bounds x) as (Hsummer & Hwinter & Hmonsoon).
  refine (season_cases _ _ _ _); intros Hx.
  - apply Hsummer in Hx. change (calculator_of "summer") with calc_kwh_summer. lra.
  - apply Hwinter in Hx. change (calculator_of "winter") with calc_kwh_winter. lra.
  - apply Hmonsoon in Hx. exact Hx.
Qed.

(** C6, refuted as stated: there is no season with a formula and no choice
    of the five values inside that season's intervals at which the formula
    is negative. *)
Lemma no_negative_kwh_within_ranges :
  ~ (exists (s : string) (f : calculator) (x : Samples),
       get_kwh_calculator s = Some f
       /\ samples_in_range s x
       /\ f (irr x) (hum x) (wind x) (temp x) (tilt x) < 0).
Proof.
  intros (s & f & x & Hf & Hx & Hneg).
  pose proof (get_kwh_calculator_Some s f Hf) as Hs.
  rewrite (get_kwh_calculator_of s Hs) in Hf. injection Hf as <-.
  pose proof (calculator_of_lower_bound s x Hs Hx) as Hlow.
  unfold apply_calculator in Hlow. lra.
Qed.

Section Binary64Sign.
Import PrimFloat.
#[local] Set Warnings "-inexact-float".

(** C6, amended: the generator does not clamp.  On binary64 numbers and
    for every stream of draws, inside [0, 1) or not, the stored [kwh] of
    every row is the value of the season's formula at the row's samples
    rounded to 2 places, whatever its sign: when every draw is -0.2 (which
    scales the monsoon irradiance to 0), day 200 stores -6.58.  But no
    choice of the five values inside a season's intervals makes its
    formula negative: in exact arithmetic the summer formula is there at
    least 149.9, the winter formula at least 51.915 and the monsoon
    formula at least 5.22, values reached at a corner of the intervals,
    and the monsoon formula needs an input outside them (irradiance 0,
    with humidity 100, wind speed 2, temperature 20, tilt 10) to give
    -9.78.  So when every draw is a number of [0, 1), every generated row
    stores a [kwh] of at least 5.22. *)
Theorem kwh_is_unclamped_and_positive_within_ranges :
  (forall (RandomState : Type) (random_sample : RandomState -> float * RandomState)
          (g : RandomState),
     exists (t : list Binary64Generator.Row) (g' : RandomState),
       Binary64Generator.generate_complete_year_data random_sample g = Ok (t, g')
       /\ forall (i : nat) (r : Binary64Generator.Row), t !! i = Some r ->
            exists f,
              Binary64Generator.get_kwh_calculator (Binary64Generator.season r) = Some f
              /\ let x := Binary64Generator.samples_at random_sample
                            (Binary64Generator.season r)
                            (Binary64Generator.advance random_sample (5 * i) g) in
                 Binary64Generator.kwh r
                 = Binary64Generator.round
                     (f (Binary64Generator.irr x) (Binary64Generator.hum x)
                        (Binary64Generator.wind x) (Binary64Generator.temp x)
                        (Binary64Generator.tilt x)) 2)
  /\ (exists (t : list Binary64Generator.Row) (g' : nat) (r : Binary64Generator.Row),
        Binary64Generator.generate_complete_year_data
          (Binary64Generator.constant_sample (-0.2)%float) 0%nat = Ok (t, g')
        /\ t !! 199%nat = Some r
        /\ Binary64Generator.season r = "monsoon"
        /\ Binary64Generator.irradiance r = 0%float
        /\ Binary64Generator.kwh r = (-6.58)%float
        /\ (Binary64Generator.kwh r <? 0)%float = true)
  /\ (forall x : Samples,
        (samples_in_range "summer" x -> 149.9 <= apply_calculator calc_kwh_summer x)
        /\ (samples_in_range "winter" x -> 51.915 <= apply_calculator calc_kwh_winter x)
        /\ (samples_in_range "monsoon" x -> 5.22 <= apply_calculator calc_kwh_monsoon x))%Q
  /\ (calc_kwh_summer 600 50 0 30 10 == 149.9)%Q
  /\ (calc_kwh_winter 300 70 1 5 10 == 51.915)%Q
  /\ (calc_kwh_monsoon 100 100 2 20 10 == 5.22)%Q
  /\ (calc_kwh_monsoon 0 100 2 20 10 == -9.78)%Q
  /\ (forall (RandomState : Type) (random_sample : RandomState -> Q * RandomState),
        (forall g, (0 <= fst (random_sample g))%Q /\ (fst (random_sample g) < 1)%Q) ->
        forall g : RandomState,
        exists (t : DataFrame) (g' : RandomState),
          generate_complete_year_data random_sample g = Ok (t, g')
          /\ Forall (fun r => (5.22 <= kwh r)%Q) t).
Proof.
  split.
  { intros RandomState random_sample g.
    exists (Binary64Generator.expected_months random_sample months_days 1 g),
           (Binary64Generator.advance random_sample 1825 g).
    split; [apply binary64_generate_expected |].
    intros i r Hi.
    destruct (binary64_rows_stored random_sample g i r Hi) as (f & Hf & Hst).
    exists f. split; [exact Hf |]. cbv zeta. apply Hst. }
  split.
  { eexists. eexists. eexists.
    split; [apply binary64_generate_expected |].
    split; [vm_compute; reflexivity |].
    repeat split; vm_compute; reflexivity. }
  split; [apply calculator_lower_bounds |].
  split; [vm_compute; reflexivity |].
  split; [vm_compute; reflexivity |].
  split; [vm_compute; reflexivity |].
  split; [vm_compute; reflexivity |].
  intros RandomState random_sample Hrange.
  apply generated_rows_Forall. intros s m day_counter g0 Hs Hm.
  cbn [kwh row_of].
  assert (5.22 <= apply_calculator (calculator_of s) (samples_at random_sample s g0))%Q
    as Hlow.
  { apply calculator_of_lower_bound; [exact Hs |].
    now apply samples_at_in_range. }
  assert (5.22 == inject_Z 522 * 0.01)%Q as E by reflexivity.
  rewrite E. apply round_2_ge_hundredths. rewrite <- E. exact Hlow.
Qed.
End Binary64Sign.

(** C6, amended, at the generator that always draws one half. *)
Lemma kwh_is_unclamped_and_positive_within_ranges_witness :
  exists (t : DataFrame) (g' : nat),
    generate_complete_year_data half_sample 0%nat = Ok (t, g')
    /\ Forall (fun r => 5.22 <= kwh r) t.
Proof.
  apply (proj2 (proj2 (proj2 (proj2 (proj2 (proj2 (proj2
           kwh_is_unclamped_and_positive_within_ranges))))))).
  intros g. simpl. split; lra.
Defined.

(** ** The season dispatch *)

Lemma get_kwh_calculator_None (s : string) :
  get_kwh_calculator s = None <-> s ∉ seasons.
Proof.
  split.
  - intros Hnone Hs. rewrite (get_kwh_calculator_of s Hs) in Hnone. discriminate.
  - intros Hs. destruct (get_kwh_calculator s) as [f |] eqn:Hf; [| reflexivity].
    exfalso. apply Hs. now apply (get_kwh_calculator_Some s f).
Qed.

(** C10: every month of [months_days] has a season in [month_to_season]
    and [get_kwh_calculator] returns a formula for that season; generation
    never raises, and every row's season has a formula.  [None] is the
    answer for exactly the seasons other than summer, winter and monsoon
    (autumn, say), and a [None] calculator reaching the call of the loop
    body would raise [TypeError]: generation never gets there. *)
Theorem dispatch_is_total_during_generation {RandomState : Type}
    (random_sample : RandomState -> Q * RandomState) (g : RandomState) :
  Forall (fun item => exists s f,
            month_to_season !! item.1 = Some s /\ get_kwh_calculator s = Some f)
    months_days
  /\ (exists (t : DataFrame) (g' : RandomState),
        generate_complete_year_data random_sample g = Ok (t, g')
        /\ Forall (fun r => is_Some (get_kwh_calculator (season r))) t)
  /\ (forall s, get_kwh_calculator s = None <-> s ∉ seasons)
  /\ get_kwh_calculator "autumn" = None
  /\ (forall m day_counter,
        day_row random_sample "summer" m None day_counter g = Raise TypeError).
Proof.
  split.
  { pose proof months_days_ok as Hok. unfold months_ok in Hok.
    eapply Forall_impl; [exact Hok |].
    intros item (s & Hm & Hs). exists s, (calculator_of s).
    split; [exact Hm | now apply get_kwh_calculator_of]. }
  split.
  { apply generated_rows_Forall. intros s m day_counter g0 Hs Hm.
    cbn [season row_of]. rewrite (get_kwh_calculator_of s Hs). now eexists. }
  split; [apply get_kwh_calculator_None |].
  split; [reflexivity |].
  intros m day_counter. unfold day_row.
  eval_feature_ranges.
  unfold mbind, M_bind, mret, M_ret, lift, np_random_uniform, call.
  repeat (destruct (random_sample _) as [? ?]; simpl).
  reflexivity.
Qed.

(** ** The table as a function of the draws *)

Section SameDraws.
Context {RandomState1 RandomState2 : Type}.
Variable random_sample1 : RandomState1 -> Q * RandomState1.
Variable random_sample2 : RandomState2 -> Q * RandomState2.

Lemma agree_advance (a n : nat) g1 g2 :
  agree random_sample1 random_sample2 (a + n) g1 g2 ->
  agree random_sample1 random_sample2 n
    (advance random_sample1 a g1) (advance random_sample2 a g2).
Proof.
  intros H k Hk. rewrite !draw_advance. apply H. lia.
Qed.

Lemma agree_le (n n' : nat) g1 g2 :
  (n <= n')%nat ->
  agree random_sample1 random_sample2 n' g1 g2 ->
  agree random_sample1 random_sample2 n g1 g2.
Proof. intros Hle H k Hk. apply H. lia. Qed.

Lemma expected_days_agree days s m day_counter g1 g2 :
  agree random_sample1 random_sample2 (5 * days) g1 g2 ->
  expected_days random_sample1 days s m day_counter g1
  = expected_days random_sample2 days s m day_counter g2.
Proof.
  revert day_counter g1 g2.
  induction days as [| days IH]; intros day_counter g1 g2 H; [reflexivity |].
  cbn [expected_days]. f_equal.
  - unfold samples_at. now rewrite !H by lia.
  - apply IH. apply agree_advance.
    eapply agree_le; [| exact H]. lia.
Qed.

Lemma expected_months_agree items day_counter g1 g2 :
  agree random_sample1 random_sample2 (5 * total_days items) g1 g2 ->
  expected_months random_sample1 items day_counter g1
  = expected_months random_sample2 items day_counter g2.
Proof.
  revert day_counter g1 g2.
  induction items as [| [m days] items IH]; intros day_counter g1 g2 H;
    [reflexivity |].
  cbn [expected_months]. cbn [total_days foldr snd] in H.
  fold (total_days items) in H. f_equal.
  - apply expected_days_agree. eapply agree_le; [| exact H]. lia.
  - apply IH. apply agree_advance. eapply agree_le; [| exact H]. lia.
Qed.

Lemma draws_agree (n : nat) g1 g2 :
  draws random_sample1 n g1 = draws random_sample2 n g2 ->
  agree random_sample1 random_sample2 n g1 g2.
Proof.
  unfold draws. intros H k Hk.
  apply (f_equal (fun l => l !! k)) in H.
  rewrite !list_lookup_fmap, !lookup_seq_lt in H by exact Hk.
  simpl in H. now injection H.
Qed.
End SameDraws.

(** C7: two invocations of the generator that are handed the same first
    1825 draws (five for each of the 365 days), be it by the same generator
    from the same state or by any two generators, both return, and return
    the same table: the same rows in the same order, hence the same number
    of rows and the same value in every field. *)
Theorem same_draws_same_table {RandomState1 RandomState2 : Type}
    (random_sample1 : RandomState1 -> Q * RandomState1)
    (random_sample2 : RandomState2 -> Q * RandomState2)
    (g1 : RandomState1) (g2 : RandomState2) :
  draws random_sample1 1825 g1 = draws random_sample2 1825 g2 ->
  exists (t : DataFrame) (g1' : RandomState1) (g2' : RandomState2),
    generate_complete_year_data random_sample1 g1 = Ok (t, g1')
    /\ generate_complete_year_data random_sample2 g2 = Ok (t, g2')
    /\ length t = 365%nat.
Proof.
  intros Hdraws.
  exists (expected_months random_sample1 months_days 1 g1),
         (advance random_sample1 1825 g1), (advance random_sample2 1825 g2).
  split; [apply generate_complete_year_data_expected |].
  split; [| apply length_expected_months].
  rewrite generate_complete_year_data_expected. do 2 f_equal.
  symmetry. apply expected_months_agree. now apply draws_agree.
Qed.

(** C7 at the generator that always draws one half, started from two
    different states. *)
Lemma same_draws_same_table_witness :
  exists (t : DataFrame) (g1' g2' : nat),
    generate_complete_year_data half_sample 0%nat = Ok (t, g1')
    /\ generate_complete_year_data half_sample 7%nat = Ok (t, g2')
    /\ length t = 365%nat.
Proof.
  apply (same_draws_same_table half_sample half_sample 0%nat 7%nat).
  vm_compute. reflexivity.
Defined.

(** ** The filter *)

Lemma filtered_df_sublist (df : DataFrame) (selected_seasons selected_months : list string) :
  sublist (filtered_df df selected_seasons selected_months) df.
Proof.
  unfold filtered_df. induction df as [| r df IH]; simpl.
  - constructor.
  - destruct (isin (season r) selected_seasons && isin (month r) selected_months);
      [now apply sublist_skip | now apply sublist_cons].
Qed.

Lemma elem_of_filtered_df (df : DataFrame) (selected_seasons selected_months : list string)
    (r : Row) :
  r ∈ filtered_df df selected_seasons selected_months
  <-> r ∈ df /\ season r ∈ selected_seasons /\ month r ∈ selected_months.
Proof.
  unfold filtered_df, isin.
  rewrite !(list_elem_of_In _ r), filter_In, andb_true_iff, !bool_decide_eq_true.
  reflexivity.
Qed.

(** C8: for all lists of selected seasons and months, in the namespace of
    a script that has bound [df] to the generated table, the filter
    statement binds [filtered_df] to the rows of [df] whose season is
    selected and whose month is selected, and to no other row, in the
    order they have in [df] (their day numbers stay increasing); it leaves
    the binding of [df], and every other binding, as it was, and every row
    of [filtered_df] is a row of [df], field for field. *)
Theorem filter_selects_and_preserves {RandomState : Type}
    (random_sample : RandomState -> Q * RandomState) (g : RandomState)
    (selected_seasons selected_months : list string)
    (globals : gmap string DataFrame) :
  exists (t : DataFrame) (g' : RandomState),
    generate_complete_year_data random_sample g = Ok (t, g')
    /\ exists globals' filtered,
         assign_filtered_df selected_seasons selected_months (<["df" := t]> globals)
         = Ok globals'
         /\ globals' !! "filtered_df" = Some filtered
         /\ (forall r, r ∈ filtered
               <-> r ∈ t /\ season r ∈ selected_seasons /\ month r ∈ selected_months)
         /\ sublist filtered t
         /\ sublist (map day filtered) (seqZ 1 365)
         /\ globals' !! "df" = Some t
         /\ (forall name, name <> "filtered_df" ->
               globals' !! name = (<["df" := t]> globals) !! name).
Proof.
  exists (expected_months random_sample months_days 1 g),
         (advance random_sample 1825 g).
  split; [apply generate_complete_year_data_expected |].
  pose proof (expected_months_days random_sample g) as Hday.
  set (t := expected_months random_sample months_days 1 g) in *.
  exists (<["filtered_df" := filtered_df t selected_seasons selected_months]>
            (<["df" := t]> globals)),
         (filtered_df t selected_seasons selected_months).
  split; [unfold assign_filtered_df; now rewrite lookup_insert_eq |].
  split; [now rewrite lookup_insert_eq |].
  split; [intros r; apply elem_of_filtered_df |].
  split; [apply filtered_df_sublist |].
  split; [rewrite <- Hday; apply (fmap_sublist day), filtered_df_sublist |].
  split; [rewrite lookup_insert_ne by discriminate; now rewrite lookup_insert_eq |].
  intros name Hname. now rewrite lookup_insert_ne.
Qed.

(** ** A session *)

Section SessionFacts.
Context {RandomState : Type}.
Variable random_sample : RandomState -> Q * RandomState.

Lemma assign_filtered_df_fresh (t : DataFrame)
    (selected_seasons selected_months : list string) :
  assign_filtered_df selected_seasons selected_months (<["df" := t]> ∅)
  = Ok (rendered t (selected_seasons, selected_months)).
Proof. unfold assign_filtered_df, rendered. now rewrite lookup_insert_eq. Qed.

(** A run that finds the table in the cache shows it and changes nothing. *)
Lemma run_script_cached (t : DataFrame) (g : RandomState)
    (selected_seasons selected_months : list string) :
  run_script random_sample selected_seasons selected_months (mkSession (Some t) g)
  = Ok (rendered t (selected_seasons, selected_months), mkSession (Some t) g).
Proof.
  unfold run_script, load_solar_data. cbn [cache mbind result_bind].
  now rewrite assign_filtered_df_fresh.
Qed.

(** The first run generates the table and stores it. *)
Lemma run_script_first (g : RandomState)
    (selected_seasons selected_months : list string) :
  run_script random_sample selected_seasons selected_months (mkSession None g)
  = Ok (rendered (expected_months random_sample months_days 1 g)
          (selected_seasons, selected_months),
        mkSession (Some (expected_months random_sample months_days 1 g))
          (advance random_sample 1825 g)).
Proof.
  unfold run_script, load_solar_data. cbn [cache np_random].
  rewrite generate_complete_year_data_expected. cbn [mbind result_bind].
  now rewrite assign_filtered_df_fresh.
Qed.

Lemma reruns_cached (t : DataFrame) (g : RandomState)
    (requests : list (list string * list string)) :
  reruns random_sample requests (mkSession (Some t) g)
  = Ok (map (rendered t) requests, mkSession (Some t) g).
Proof.
  induction requests as [| [selected_seasons selected_months] requests IH];
    [reflexivity |].
  cbn [reruns].
  rewrite run_script_cached.
  cbn [mbind result_bind]. rewrite IH. reflexivity.
Qed.
End SessionFacts.

(** C9: in a session that starts with an empty cache, whatever the
    sequence of sidebar selections that make the script run again, every
    run succeeds and reads the same [df], the table that the first run
    generated; each run's [filtered_df] is the filter of that table, so a
    selection asked twice is answered alike; and once a run has happened
    the state of the random generator is the one reached after the 1825
    draws of the first run: no later run draws. *)
Theorem one_table_per_session {RandomState : Type}
    (random_sample : RandomState -> Q * RandomState) (g : RandomState)
    (requests : list (list string * list string)) :
  exists (t : DataFrame) (g' : RandomState),
    generate_complete_year_data random_sample g = Ok (t, g')
    /\ g' = advance random_sample 1825 g
    /\ exists outputs s',
         reruns random_sample requests (mkSession None g) = Ok (outputs, s')
         /\ outputs = map (rendered t) requests
         /\ Forall (fun globals => globals !! "df" = Some t) outputs
         /\ s' = match requests with
                 | [] => mkSession None g
                 | _ :: _ => mkSession (Some t) g'
                 end.
Proof.
  exists (expected_months random_sample months_days 1 g),
         (advance random_sample 1825 g).
  split; [apply generate_complete_year_data_expected |].
  split; [reflexivity |].
  set (t := expected_months random_sample months_days 1 g).
  assert (Forall (fun globals : gmap string DataFrame => globals !! "df" = Some t)
            (map (rendered t) requests)) as Hdf.
  { apply Forall_fmap, Forall_forall. intros request _.
    unfold rendered, compose. cbv beta.
    rewrite lookup_insert_ne by discriminate. now rewrite lookup_insert_eq. }
  destruct requests as [| [selected_seasons selected_months] requests].
  - exists [], (mkSession None g).
    split; [reflexivity |]. split; [reflexivity |].
    split; [constructor | reflexivity].
  - exists (map (rendered t) ((selected_seasons, selected_months) :: requests)),
           (mkSession (Some t) (advance random_sample 1825 g)).
    split; [| split; [reflexivity | split; [exact Hdf | reflexivity]]].
    cbn [reruns]. rewrite run_script_first.
    cbn [mbind result_bind]. fold t. rewrite reruns_cached. reflexivity.
Qed.

(** * Further properties of the script *)

(** ** The widgets' defaults *)

Lemma elem_of_unique_from (seen xs : list string) (x : string) :
  x ∈ unique_from seen xs <-> x ∈ xs /\ x ∉ seen.
Proof.
  revert seen. induction xs as [| y xs IH]; intros seen; simpl.
  - split; [intros H; inversion H | intros [H _]; inversion H].
  - destruct (bool_decide_reflect (y ∈ seen)) as [Hy | Hy].
    + rewrite IH, elem_of_cons. split; [tauto |].
      intros [[-> | Hx] Hn]; [contradiction | tauto].
    + rewrite !elem_of_cons, IH, elem_of_cons. split.
      * intros [-> | [Hx Hn]]; [tauto | tauto].
      * intros [[-> | Hx] Hn]; [tauto |].
        destruct (decide (x = y)) as [-> | Hne]; [tauto | right; tauto].
Qed.

Lemma NoDup_unique_from (seen xs : list string) : NoDup (unique_from seen xs).
Proof.
  revert seen. induction xs as [| y xs IH]; intros seen; simpl.
  - constructor.
  - destruct (bool_decide (y ∈ seen)); [apply IH |].
    constructor; [| apply IH].
    rewrite elem_of_unique_from, elem_of_cons. tauto.
Qed.

Lemma sublist_unique_from (seen xs : list string) : sublist (unique_from seen xs) xs.
Proof.
  revert seen. induction xs as [| y xs IH]; intros seen; simpl.
  - constructor.
  - destruct (bool_decide (y ∈ seen));
      [apply sublist_cons, IH | apply sublist_skip, IH].
Qed.

Lemma elem_of_unique (xs : list string) (x : string) : x ∈ unique xs <-> x ∈ xs.
Proof.
  unfold unique. rewrite elem_of_unique_from. split; [tauto |].
  intros H. split; [exact H | apply not_elem_of_nil].
Qed.

Lemma filter_all {A : Type} (f : A -> bool) (l : list A) :
  (forall x, x ∈ l -> f x = true) -> List.filter f l = l.
Proof.
  induction l as [| x l IH]; intros H; simpl; [reflexivity |].
  rewrite (H x) by left. f_equal. apply IH. intros y Hy. apply H. now right.
Qed.

Lemma filter_none {A : Type} (f : A -> bool) (l : list A) :
  (forall x, x ∈ l -> f x = false) -> List.filter f l = [].
Proof.
  induction l as [| x l IH]; intros H; simpl; [reflexivity |].
  rewrite (H x) by left. apply IH. intros y Hy. apply H. now right.
Qed.

Lemma filtered_df_default (df : DataFrame) :
  filtered_df df (default_seasons df) (default_months df) = df.
Proof.
  unfold filtered_df, isin, default_seasons, default_months.
  apply filter_all. intros r Hr.
  rewrite andb_true_iff, !bool_decide_eq_true, !elem_of_unique.
  split; apply list_elem_of_fmap; now exists r.
Qed.

(** X1: for every frame, the selections that the two widgets take by
    default (the distinct seasons and the distinct months of the frame,
    each listed once, in the order in which the frame first shows them)
    make the filter return the frame itself, row for row. *)
Theorem default_selection_keeps_every_row (df : DataFrame) :
  filtered_df df (default_seasons df) (default_months df) = df
  /\ NoDup (default_seasons df)
  /\ NoDup (default_months df)
  /\ sublist (default_seasons df) (map season df)
  /\ sublist (default_months df) (map month df)
  /\ (forall s, s ∈ default_seasons df <-> exists r, r ∈ df /\ season r = s)
  /\ (forall m, m ∈ default_months df <-> exists r, r ∈ df /\ month r = m).
Proof.
  split; [apply filtered_df_default |].
  split; [apply NoDup_unique_from |].
  split; [apply NoDup_unique_from |].
  split; [apply sublist_unique_from |].
  split; [apply sublist_unique_from |].
  split; intros x; unfold default_seasons, default_months;
    rewrite elem_of_unique, list_elem_of_fmap;
    split; intros (r & H1 & H2); exists r; split; solve [assumption | congruence].
Qed.

Lemma expected_months_seasons {RandomState : Type}
    (random_sample : RandomState -> Q * RandomState) (g : RandomState) :
  map season (expected_months random_sample months_days 1 g)
  = map (fun k => k.2) (calendar months_days 1).
Proof.
  rewrite <- (expected_months_key random_sample months_days 1 g), map_map.
  reflexivity.
Qed.

Lemma expected_months_months {RandomState : Type}
    (random_sample : RandomState -> Q * RandomState) (g : RandomState) :
  map month (expected_months random_sample months_days 1 g)
  = map (fun k => k.1.2) (calendar months_days 1).
Proof.
  rewrite <- (expected_months_key random_sample months_days 1 g), map_map.
  reflexivity.
Qed.

(** X2: on every generated table the season widget offers winter, summer
    and monsoon, in this order (the order in which the year meets them),
    and the month widget offers the twelve months from January to
    December; these are also the default selections. *)
Theorem widget_options_of_generated_table {RandomState : Type}
    (random_sample : RandomState -> Q * RandomState) (g : RandomState) :
  exists (t : DataFrame) (g' : RandomState),
    generate_complete_year_data random_sample g = Ok (t, g')
    /\ default_seasons t = ["winter"; "summer"; "monsoon"]
    /\ default_months t
       = ["January"; "February"; "March"; "April"; "May"; "June"; "July";
          "August"; "September"; "October"; "November"; "December"].
Proof.
  exists (expected_months random_sample months_days 1 g),
         (advance random_sample 1825 g).
  split; [apply generate_complete_year_data_expected |].
  unfold default_seasons, default_months.
  rewrite expected_months_seasons, expected_months_months.
  split; vm_compute; reflexivity.
Qed.

(** ** How many rows a selection keeps *)

Lemma filter_map_comm {A B : Type} (f : A -> B) (p : B -> bool) (l : list A) :
  map f (List.filter (fun x => p (f x)) l) = List.filter p (map f l).
Proof.
  induction l as [| x l IH]; simpl; [reflexivity |].
  destruct (p (f x)); simpl; now rewrite IH.
Qed.

Lemma filter_calendar_length (p : string -> string -> bool)
    (items : list (string * Z)) (day_counter : Z) :
  length (List.filter (fun k => p k.1.2 k.2) (calendar items day_counter))
  = total_days (List.filter (fun item => p item.1 (season_of item.1)) items).
Proof.
  revert day_counter. induction items as [| [m d] items IH]; intros day_counter.
  - reflexivity.
  - cbn [calendar List.filter fst snd].
    rewrite List.filter_app, length_app, IH.
    destruct (p m (season_of m)) eqn:Hp.
    + rewrite filter_all.
      * rewrite length_map, length_seq. reflexivity.
      * intros k Hk. apply list_elem_of_fmap in Hk as (i & -> & _). exact Hp.
    + rewrite filter_none; [reflexivity |].
      intros k Hk. apply list_elem_of_fmap in Hk as (i & -> & _). exact Hp.
Qed.

Lemma filtered_df_expected_length {RandomState : Type}
    (random_sample : RandomState -> Q * RandomState) (g : RandomState)
    (selected_seasons selected_months : list string) :
  length (filtered_df (expected_months random_sample months_days 1 g)
            selected_seasons selected_months)
  = selected_days selected_seasons selected_months.
Proof.
  unfold filtered_df, selected_days.
  rewrite <- (length_map row_key).
  rewrite (filter_map_comm row_key
             (fun k => isin k.2 selected_seasons && isin k.1.2 selected_months)).
  rewrite expected_months_key.
  apply (filter_calendar_length
           (fun m s => isin s selected_seasons && isin m selected_months)).
Qed.

(** X3: on every generated table, the filter keeps as many rows as there
    are days in the selected months whose season is also selected, whatever
    was drawn: 122 for summer alone, 123 for monsoon, 120 for winter, 28
    for February alone, none for summer together with January, and 365
    when everything is selected. *)
Theorem filter_keeps_the_selected_days {RandomState : Type}
    (random_sample : RandomState -> Q * RandomState) (g : RandomState) :
  exists (t : DataFrame) (g' : RandomState),
    generate_complete_year_data random_sample g = Ok (t, g')
    /\ (forall selected_seasons selected_months,
          length (filtered_df t selected_seasons selected_months)
          = selected_days selected_seasons selected_months)
    /\ selected_days ["summer"] (default_months t) = 122%nat
    /\ selected_days ["monsoon"] (default_months t) = 123%nat
    /\ selected_days ["winter"] (default_months t) = 120%nat
    /\ selected_days (default_seasons t) ["February"] = 28%nat
    /\ selected_days ["summer"] ["January"] = 0%nat
    /\ selected_days (default_seasons t) (default_months t) = 365%nat.
Proof.
  exists (expected_months random_sample months_days 1 g),
         (advance random_sample 1825 g).
  split; [apply generate_complete_year_data_expected |].
  split; [intros; apply filtered_df_expected_length |].
  unfold default_seasons, default_months.
  rewrite expected_months_seasons, expected_months_months.
  repeat split; vm_compute; reflexivity.
Qed.

(** ** The cards *)

Lemma series_sum_bounds (lo hi : Q) (xs : list Q) :
  Forall (fun x => lo <= x /\ x <= hi) xs ->
  lo * inject_Z (Z.of_nat (length xs)) <= series_sum xs
  /\ series_sum xs <= hi * inject_Z (Z.of_nat (length xs)).
Proof.
  induction 1 as [| x xs [Hlo Hhi] _ [IHlo IHhi]].
  - change (inject_Z (Z.of_nat (length (@nil Q)))) with 0.
    change (series_sum []) with 0. split; lra.
  - cbn [length series_sum foldr]. fold (series_sum xs).
    rewrite Nat2Z.inj_succ, <- Z.add_1_r, inject_Z_plus.
    change (inject_Z 1) with 1. split; lra.
Qed.

Lemma length_pos_Q {A : Type} (x : A) (xs : list A) :
  0 < inject_Z (Z.of_nat (length (x :: xs))).
Proof.
  change 0 with (inject_Z 0). rewrite <- Zlt_Qlt. simpl length. lia.
Qed.

(** The mean of a non-empty column lies between any two bounds of its
    values. *)
Lemma series_mean_bounds (lo hi : Q) (xs : list Q) :
  xs <> [] -> Forall (fun x => lo <= x /\ x <= hi) xs ->
  exists m, series_mean xs = Some m /\ lo <= m /\ m <= hi.
Proof.
  intros Hne Hall. destruct xs as [| x xs]; [contradiction |].
  eexists. split; [reflexivity |].
  destruct (series_sum_bounds lo hi _ Hall) as [Hlo Hhi].
  pose proof (length_pos_Q x xs) as Hn.
  split.
  - apply Qle_shift_div_l; [exact Hn | exact Hlo].
  - apply Qle_shift_div_r; [exact Hn | exact Hhi].
Qed.

Lemma Qmax_is_one (x y : Q) : Qmax x y = x \/ Qmax x y = y.
Proof. unfold Qmax, GenericMinMax.gmax. destruct (x ?= y); auto. Qed.

Lemma Qmin_is_one (x y : Q) : Qmin x y = x \/ Qmin x y = y.
Proof. unfold Qmin, GenericMinMax.gmin. destruct (x ?= y); auto. Qed.

Lemma foldl_Qmax_spec (x : Q) (xs : list Q) :
  x <= foldl Qmax x xs
  /\ Forall (fun y => y <= foldl Qmax x xs) xs
  /\ foldl Qmax x xs ∈ x :: xs.
Proof.
  revert x. induction xs as [| y xs IH]; intros x; simpl.
  - split; [lra |]. split; [constructor | left].
  - destruct (IH (Qmax x y)) as (H1 & H2 & H3).
    pose proof (Q.le_max_l x y) as Hl. pose proof (Q.le_max_r x y) as Hr.
    split; [lra |]. split; [constructor; [lra | exact H2] |].
    apply elem_of_cons in H3 as [H3 | H3]; [| right; now right].
    rewrite H3. destruct (Qmax_is_one x y) as [-> | ->];
      [left | right; left].
Qed.

Lemma foldl_Qmin_spec (x : Q) (xs : list Q) :
  foldl Qmin x xs <= x
  /\ Forall (fun y => foldl Qmin x xs <= y) xs
  /\ foldl Qmin x xs ∈ x :: xs.
Proof.
  revert x. induction xs as [| y xs IH]; intros x; simpl.
  - split; [lra |]. split; [constructor | left].
  - destruct (IH (Qmin x y)) as (H1 & H2 & H3).
    pose proof (Q.le_min_l x y) as Hl. pose proof (Q.le_min_r x y) as Hr.
    split; [lra |]. split; [constructor; [lra | exact H2] |].
    apply elem_of_cons in H3 as [H3 | H3]; [| right; now right].
    rewrite H3. destruct (Qmin_is_one x y) as [-> | ->];
      [left | right; left].
Qed.

(** ** The shape of the formulas *)

(** X10: each of the three formulas that [get_kwh_calculator] returns is
    greatest at a tilt of 30 degrees and takes the same value at equal
    distances above and below 30; it grows with irradiance, with wind
    speed and with temperature, and falls as humidity grows. *)
Theorem formulas_peak_at_tilt_30 (s : string) (f : calculator) :
  get_kwh_calculator s = Some f ->
  (forall i h w t a, f i h w t a <= f i h w t 30)
  /\ (forall i h w t d, f i h w t (30 + d) == f i h w t (30 - d))
  /\ (forall i i' h w t a, i <= i' -> f i h w t a <= f i' h w t a)
  /\ (forall i h h' w t a, h <= h' -> f i h' w t a <= f i h w t a)
  /\ (forall i h w w' t a, w <= w' -> f i h w t a <= f i h w' t a)
  /\ (forall i h w t t' a, t <= t' -> f i h w t a <= f i h w t' a).
Proof.
  intros Hf. pose proof (get_kwh_calculator_Some s f Hf) as Hs.
  rewrite (get_kwh_calculator_of s Hs) in Hf. injection Hf as <-.
  revert s Hs.
  refine (season_cases _ _ _ _);
    change (calculator_of "summer") with calc_kwh_summer;
    change (calculator_of "winter") with calc_kwh_winter;
    change (calculator_of "monsoon") with calc_kwh_monsoon;
    unfold calc_kwh_summer, calc_kwh_winter, calc_kwh_monsoon;
    (split; [intros i h w t a; split_Qabs (a - 30); split_Qabs (30 - 30); lra |]);
    (split; [intros i h w t d;
             split_Qabs (30 + d - 30); split_Qabs (30 - d - 30); lra |]);
    repeat split; intros; lra.
Qed.

(** X10 at the summer formula. *)
Lemma formulas_peak_at_tilt_30_witness :
  (forall i h w t a, calc_kwh_summer i h w t a <= calc_kwh_summer i h w t 30)
  /\ (forall i h w t d,
        calc_kwh_summer i h w t (30 + d) == calc_kwh_summer i h w t (30 - d))
  /\ (forall i i' h w t a,
        i <= i' -> calc_kwh_summer i h w t a <= calc_kwh_summer i' h w t a)
  /\ (forall i h h' w t a,
        h <= h' -> calc_kwh_summer i h' w t a <= calc_kwh_summer i h w t a)
  /\ (forall i h w w' t a,
        w <= w' -> calc_kwh_summer i h w t a <= calc_kwh_summer i h w' t a)
  /\ (forall i h w t t' a,
        t <= t' -> calc_kwh_summer i h w t a <= calc_kwh_summer i h w t' a).
Proof.
  apply (formulas_peak_at_tilt_30 "summer" calc_kwh_summer). reflexivity.
Defined.

(** ** The yield of each season *)

(** The greatest value of each formula over its season's intervals. *)
Lemma calculator_upper_bounds (x : Samples) :
  (samples_in_range "summer" x -> apply_calculator calc_kwh_summer x <= 254.1)
  /\ (samples_in_range "winter" x -> apply_calculator calc_kwh_winter x <= 126.79)
  /\ (samples_in_range "monsoon" x -> apply_calculator calc_kwh_monsoon x <= 84.83).
Proof.
  destruct x as [i h w t a].
  unfold samples_in_range, apply_calculator,
    calc_kwh_summer, calc_kwh_winter, calc_kwh_monsoon.
  cbn [irr hum wind temp tilt].
  repeat split; intros (Hi & Hh & Hw & Ht & Ha);
    eval_in_feature_range Hi; eval_in_feature_range Hh; eval_in_feature_range Hw;
    eval_in_feature_range Ht; eval_in_feature_range Ha;
    split_Qabs (a - 30); lra.
Qed.

Lemma round_2_between (lo hi : Z) (x : Q) :
  inject_Z lo * 0.01 <= x -> x <= inject_Z hi * 0.01 ->
  inject_Z lo * 0.01 <= round x 2 /\ round x 2 <= inject_Z hi * 0.01.
Proof.
  intros Hlo Hhi. split;
    [now apply round_2_ge_hundredths | now apply round_2_le_hundredths].
Qed.

Lemma row_of_in_yield_band (s m : string) (day_counter : Z) (x : Samples) :
  s ∈ seasons -> samples_in_range s x ->
  in_yield_band (row_of s m day_counter x).
Proof.
  intros Hs. revert s Hs.
  destruct (calculator_lower_bounds x) as (Hl1 & Hl2 & Hl3).
  destruct (calculator_upper_bounds x) as (Hu1 & Hu2 & Hu3).
  unfold in_yield_band.
  refine (season_cases _ _ _ _); intros Hx; cbn [season kwh row_of];
    [left | right; left | right; right]; (split; [reflexivity |]).
  - change (calculator_of "summer") with calc_kwh_summer.
    specialize (Hl1 Hx). specialize (Hu1 Hx).
    destruct (round_2_between 14990 25410 (apply_calculator calc_kwh_summer x));
      unfold inject_Z in *; [lra | lra |]. split; lra.
  - change (calculator_of "winter") with calc_kwh_winter.
    specialize (Hl2 Hx). specialize (Hu2 Hx).
    destruct (round_2_between 5191 12679 (apply_calculator calc_kwh_winter x));
      unfold inject_Z in *; [lra | lra |]. split; lra.
  - change (calculator_of "monsoon") with calc_kwh_monsoon.
    specialize (Hl3 Hx). specialize (Hu3 Hx).
    destruct (round_2_between 522 8483 (apply_calculator calc_kwh_monsoon x));
      unfold inject_Z in *; [lra | lra |]. split; lra.
Qed.

Lemma generated_rows_in_yield_band {RandomState : Type}
    (random_sample : RandomState -> Q * RandomState)
    (random_sample_range :
       forall g, 0 <= fst (random_sample g) /\ fst (random_sample g) < 1)
    (g : RandomState) :
  Forall in_yield_band (expected_months random_sample months_days 1 g).
Proof.
  apply Forall_lookup. intros i r Hi.
  apply (expected_months_lookup _ _ _ _ _ _ months_days_ok) in Hi
    as (s & m & Hs & Hm & ->).
  apply row_of_in_yield_band; [exact Hs |].
  now apply samples_at_in_range.
Qed.

(** X11: when every draw is a number of [0, 1), the stored yield of every
    generated summer row lies in [149.9, 254.1], of every winter row in
    [51.91, 126.79] and of every monsoon row in [5.22, 84.83]; so every
    summer day of a table yields more than every winter day and every
    monsoon day of the same table. *)
Theorem summer_days_yield_most {RandomState : Type}
    (random_sample : RandomState -> Q * RandomState)
    (random_sample_range :
       forall g, 0 <= fst (random_sample g) /\ fst (random_sample g) < 1)
    (g : RandomState) :
  exists (t : DataFrame) (g' : RandomState),
    generate_complete_year_data random_sample g = Ok (t, g')
    /\ Forall in_yield_band t
    /\ forall r1 r2, r1 ∈ t -> r2 ∈ t ->
         season r1 = "summer" -> season r2 <> "summer" -> kwh r2 < kwh r1.
Proof.
  exists (expected_months random_sample months_days 1 g),
         (advance random_sample 1825 g).
  split; [apply generate_complete_year_data_expected |].
  pose proof (generated_rows_in_yield_band random_sample random_sample_range g)
    as Hband.
  split; [exact Hband |].
  intros r1 r2 H1 H2 Hs1 Hs2.
  rewrite Forall_forall in Hband.
  destruct (Hband r1 H1) as [(_ & Hlo & _) | [(E & _) | (E & _)]];
    [| rewrite Hs1 in E; discriminate | rewrite Hs1 in E; discriminate].
  destruct (Hband r2 H2) as [(E & _) | [(_ & _ & Hhi) | (_ & _ & Hhi)]];
    [contradiction | lra | lra].
Qed.

(** X11 at the generator that always draws one half. *)
Lemma summer_days_yield_most_witness :
  exists (t : DataFrame) (g' : nat),
    generate_complete_year_data half_sample 0%nat = Ok (t, g')
    /\ Forall in_yield_band t
    /\ forall r1 r2, r1 ∈ t -> r2 ∈ t ->
         season r1 = "summer" -> season r2 <> "summer" -> kwh r2 < kwh r1.
Proof.
  apply (summer_days_yield_most half_sample).
  intros g. simpl. split; lra.
Defined.

(** ** The cards, continued *)

Lemma series_mean_times_length (x : Q) (xs : list Q) :
  exists m, series_mean (x :: xs) = Some m
    /\ m * inject_Z (Z.of_nat (length (x :: xs))) == series_sum (x :: xs).
Proof.
  eexists. split; [reflexivity |].
  pose proof (length_pos_Q x xs) as Hn.
  rewrite Qmult_comm. apply Qmult_div_r.
  intros E. rewrite E in Hn. exact (Qlt_irrefl 0 Hn).
Qed.

(** X4: on a frame that has rows, the default selections make every
    "against the whole year" delta zero: the total of [kwh] minus the
    overall mean times the number of rows, and the three differences of a
    filtered mean and the overall mean. *)
Theorem default_selection_has_zero_deltas (df : DataFrame) :
  df <> [] ->
  let cards := key_metrics df (filtered_df df (default_seasons df) (default_months df)) in
  total_energy cards = series_sum (map kwh df)
  /\ (exists d, total_energy_delta cards = Some d /\ d == 0)
  /\ (exists d, average_daily_output_delta cards = Some d /\ d == 0)
  /\ (exists d, avg_irradiance_delta cards = Some d /\ d == 0)
  /\ (exists d, avg_temperature_delta cards = Some d /\ d == 0).
Proof.
  intros Hne. rewrite filtered_df_default. destruct df as [| r df]; [contradiction |].
  cbv zeta. unfold key_metrics.
  cbn [total_energy total_energy_delta average_daily_output_delta
       avg_irradiance_delta avg_temperature_delta].
  split; [reflexivity |].
  split.
  { destruct (series_mean_times_length (kwh r) (map kwh df)) as (m & Hm & Hmn).
    cbn [map]. rewrite Hm. cbn [nan_mul nan_sub]. eexists. split; [reflexivity |].
    cbn [length] in *. rewrite length_map in Hmn. lra. }
  repeat split; cbn [map series_mean nan_sub]; eexists; (split; [reflexivity | lra]).
Qed.

(** X4 at a frame of two rows. *)
Lemma default_selection_has_zero_deltas_witness :
  let cards :=
    key_metrics two_days
      (filtered_df two_days (default_seasons two_days) (default_months two_days)) in
  total_energy cards = series_sum (map kwh two_days)
  /\ (exists d, total_energy_delta cards = Some d /\ d == 0)
  /\ (exists d, average_daily_output_delta cards = Some d /\ d == 0)
  /\ (exists d, avg_irradiance_delta cards = Some d /\ d == 0)
  /\ (exists d, avg_temperature_delta cards = Some d /\ d == 0).
Proof.
  apply (default_selection_has_zero_deltas two_days). discriminate.
Defined.

Lemma selected_days_nothing_selected (selected_seasons selected_months : list string) :
  selected_days [] selected_months = 0%nat
  /\ selected_days selected_seasons [] = 0%nat.
Proof.
  unfold selected_days. split.
  - rewrite filter_none; [reflexivity |]. intros item _. unfold isin.
    rewrite andb_false_iff, !bool_decide_eq_false. left. apply not_elem_of_nil.
  - rewrite filter_none; [reflexivity |]. intros item _. unfold isin.
    rewrite andb_false_iff, !bool_decide_eq_false. right. apply not_elem_of_nil.
Qed.

(** X5: on every generated table and for every selection, the average,
    the peak, the two other means and the deltas taken from them are NaN
    exactly when the selection keeps no day, that is when no selected
    month has a selected season (so for an empty list of seasons or of
    months); the delta of the total is never NaN, and with no day selected
    the total and its delta are both 0. *)
Theorem cards_are_nan_exactly_when_no_day_is_selected {RandomState : Type}
    (random_sample : RandomState -> Q * RandomState) (g : RandomState) :
  exists (t : DataFrame) (g' : RandomState),
    generate_complete_year_data random_sample g = Ok (t, g')
    /\ forall selected_seasons selected_months,
         let days := selected_days selected_seasons selected_months in
         let cards := key_metrics t (filtered_df t selected_seasons selected_months) in
         (average_daily_output cards = None <-> days = 0%nat)
         /\ (average_daily_output_delta cards = None <-> days = 0%nat)
         /\ (peak_performance cards = None <-> days = 0%nat)
         /\ (peak_performance_delta cards = None <-> days = 0%nat)
         /\ (avg_irradiance cards = None <-> days = 0%nat)
         /\ (avg_irradiance_delta cards = None <-> days = 0%nat)
         /\ (avg_temperature cards = None <-> days = 0%nat)
         /\ (avg_temperature_delta cards = None <-> days = 0%nat)
         /\ is_Some (total_energy_delta cards)
         /\ (days = 0%nat ->
               total_energy cards = 0
               /\ exists d, total_energy_delta cards = Some d /\ d == 0)
         /\ selected_days [] selected_months = 0%nat
         /\ selected_days selected_seasons [] = 0%nat.
Proof.
  exists (expected_months random_sample months_days 1 g),
         (advance random_sample 1825 g).
  split; [apply generate_complete_year_data_expected |].
  intros selected_seasons selected_months. cbv zeta.
  rewrite <- (filtered_df_expected_length random_sample g).
  pose proof (length_expected_months random_sample months_days 1 g) as Hlen.
  destruct (expected_months random_sample months_days 1 g) as [| r0 t];
    [discriminate Hlen |].
  clear Hlen.
  destruct (selected_days_nothing_selected selected_seasons selected_months)
    as [He1 He2].
  destruct (filtered_df (r0 :: t) selected_seasons selected_months) as [| r f].
  - unfold key_metrics.
    cbn [average_daily_output average_daily_output_delta peak_performance
         peak_performance_delta avg_irradiance avg_irradiance_delta
         avg_temperature avg_temperature_delta total_energy total_energy_delta
         map series_mean series_max series_min nan_sub nan_mul length].
    repeat (split; [tauto |]).
    split; [now eexists |].
    split; [| tauto].
    intros _. split; [reflexivity |]. eexists. split; [reflexivity |].
    change (series_sum []) with 0. change (inject_Z (Z.of_nat 0)) with 0. lra.
  - unfold key_metrics.
    cbn [average_daily_output average_daily_output_delta peak_performance
         peak_performance_delta avg_irradiance avg_irradiance_delta
         avg_temperature avg_temperature_delta total_energy total_energy_delta
         map series_mean series_max series_min nan_sub nan_mul length].
    repeat (split; [split; intros H; discriminate H |]).
    split; [now eexists |].
    split; [intros H; discriminate H | tauto].
Qed.

(** X6: when both the frame and the selection have rows, the delta of the
    total card is the delta of the average card times the number of
    selected rows (in exact arithmetic), so the two deltas have the same
    sign. *)
Theorem total_delta_is_rows_times_average_delta (df filtered : DataFrame) :
  df <> [] -> filtered <> [] ->
  exists dt da,
    total_energy_delta (key_metrics df filtered) = Some dt
    /\ average_daily_output_delta (key_metrics df filtered) = Some da
    /\ dt == inject_Z (Z.of_nat (length filtered)) * da
    /\ (0 < dt <-> 0 < da)
    /\ (dt < 0 <-> da < 0).
Proof.
  intros Hdf Hf. destruct df as [| r df]; [contradiction |].
  destruct filtered as [| r' filtered]; [contradiction |].
  destruct (series_mean_times_length (kwh r) (map kwh df)) as (m & Hm & _).
  destruct (series_mean_times_length (kwh r') (map kwh filtered)) as (m' & Hm' & Hmn').
  unfold key_metrics. cbn [total_energy_delta average_daily_output_delta map].
  rewrite Hm, Hm'. cbn [nan_mul nan_sub].
  eexists. eexists. split; [reflexivity |]. split; [reflexivity |].
  cbn [length] in Hmn'. rewrite length_map in Hmn'.
  pose proof (length_pos_Q r' filtered) as Hn. cbn [length] in Hn |- *.
  set (n := inject_Z (Z.of_nat (S (length filtered)))) in *.
  assert (series_sum (kwh r' :: map kwh filtered) - m * n == n * (m' - m)) as E
    by lra.
  split; [exact E |].
  rewrite E. split; split; intros H; nra.
Qed.

(** X6 at a frame of two rows and its first row. *)
Lemma total_delta_is_rows_times_average_delta_witness :
  exists dt da,
    total_energy_delta (key_metrics two_days (take 1 two_days)) = Some dt
    /\ average_daily_output_delta (key_metrics two_days (take 1 two_days)) = Some da
    /\ dt == inject_Z (Z.of_nat (length (take 1 two_days))) * da
    /\ (0 < dt <-> 0 < da)
    /\ (dt < 0 <-> da < 0).
Proof.
  apply (total_delta_is_rows_times_average_delta two_days (take 1 two_days));
    discriminate.
Defined.

Lemma series_min_mean_max (xs : list Q) :
  xs <> [] ->
  exists lo m hi,
    series_min xs = Some lo /\ series_mean xs = Some m /\ series_max xs = Some hi
    /\ lo <= m /\ m <= hi /\ lo ∈ xs /\ hi ∈ xs.
Proof.
  intros Hne. destruct xs as [| x xs]; [contradiction |].
  destruct (foldl_Qmin_spec x xs) as (Hmin1 & Hmin2 & Hmin3).
  destruct (foldl_Qmax_spec x xs) as (Hmax1 & Hmax2 & Hmax3).
  destruct (series_mean_bounds (foldl Qmin x xs) (foldl Qmax x xs) (x :: xs) Hne)
    as (m & Hm & Hlo & Hhi).
  { constructor; [split; assumption |].
    rewrite Forall_forall in Hmin2, Hmax2. apply Forall_forall.
    intros y Hy. split; [now apply Hmin2 | now apply Hmax2]. }
  exists (foldl Qmin x xs), m, (foldl Qmax x xs).
  repeat split; assumption.
Qed.

(** X7: when every draw is a number of [0, 1), for every selection that
    keeps at least one day of a generated table, the average card and the
    peak card show numbers; the least and the greatest selected yield lie
    in [5.22, 254.1], the least at most the greatest; the average lies
    between them up to 0.001 (a binary64 mean can fall a rounding error
    outside its values); and the delta of the peak card is a number from
    0 to 248.89. *)
Theorem cards_of_a_selection_are_bounded {RandomState : Type}
    (random_sample : RandomState -> Q * RandomState)
    (random_sample_range :
       forall g, 0 <= fst (random_sample g) /\ fst (random_sample g) < 1)
    (g : RandomState) (selected_seasons selected_months : list string) :
  selected_days selected_seasons selected_months <> 0%nat ->
  exists (t : DataFrame) (g' : RandomState),
    generate_complete_year_data random_sample g = Ok (t, g')
    /\ exists low avg peak delta,
         let f := filtered_df t selected_seasons selected_months in
         series_min (map kwh f) = Some low
         /\ average_daily_output (key_metrics t f) = Some avg
         /\ peak_performance (key_metrics t f) = Some peak
         /\ peak_performance_delta (key_metrics t f) = Some delta
         /\ 5.22 <= low /\ low <= peak /\ peak <= 254.1
         /\ low - 0.001 <= avg /\ avg <= peak + 0.001
         /\ 0 <= delta /\ delta <= 248.89.
Proof.
  intros Hdays.
  exists (expected_months random_sample months_days 1 g),
         (advance random_sample 1825 g).
  split; [apply generate_complete_year_data_expected |].
  set (t := expected_months random_sample months_days 1 g).
  set (f := filtered_df t selected_seasons selected_months).
  assert (map kwh f <> []) as Hne.
  { intros E. apply (f_equal length) in E. rewrite length_map in E.
    unfold f, t in E. rewrite filtered_df_expected_length in E. contradiction. }
  assert (Forall in_yield_band f) as Hband.
  { pose proof (generated_rows_in_yield_band random_sample random_sample_range g)
      as Hall.
    rewrite Forall_forall in Hall. apply Forall_forall. intros r Hr.
    apply elem_of_filtered_df in Hr as [Hr _]. now apply Hall. }
  destruct (series_min_mean_max (map kwh f) Hne)
    as (low & avg & peak & Hmin & Hmean & Hmax & H1 & H2 & Hin1 & Hin2).
  exists low, avg, peak, (peak - low). cbv zeta. unfold key_metrics.
  cbn [average_daily_output peak_performance peak_performance_delta].
  rewrite Hmin, Hmean, Hmax.
  split; [reflexivity |]. split; [reflexivity |]. split; [reflexivity |].
  split; [reflexivity |].
  rewrite Forall_forall in Hband.
  apply list_elem_of_fmap in Hin1 as (r1 & -> & Hr1).
  apply list_elem_of_fmap in Hin2 as (r2 & -> & Hr2).
  pose proof (Hband r1 Hr1) as B1. pose proof (Hband r2 Hr2) as B2.
  unfold in_yield_band in B1, B2.
  assert (5.22 <= kwh r1) as L1
    by (destruct B1 as [(_ & H & _) | [(_ & H & _) | (_ & H & _)]]; lra).
  assert (kwh r2 <= 254.1) as L2
    by (destruct B2 as [(_ & _ & H) | [(_ & _ & H) | (_ & _ & H)]]; lra).
  repeat split; lra.
Qed.

(** X7 at the generator that always draws one half, for the summer days
    of March. *)
Lemma cards_of_a_selection_are_bounded_witness :
  exists (t : DataFrame) (g' : nat),
    generate_complete_year_data half_sample 0%nat = Ok (t, g')
    /\ exists low avg peak delta,
         let f := filtered_df t ["summer"] ["March"] in
         series_min (map kwh f) = Some low
         /\ average_daily_output (key_metrics t f) = Some avg
         /\ peak_performance (key_metrics t f) = Some peak
         /\ peak_performance_delta (key_metrics t f) = Some delta
         /\ 5.22 <= low /\ low <= peak /\ peak <= 254.1
         /\ low - 0.001 <= avg /\ avg <= peak + 0.001
         /\ 0 <= delta /\ delta <= 248.89.
Proof.
  apply (cards_of_a_selection_are_bounded half_sample).
  - intros g. simpl. split; lra.
  - vm_compute. discriminate.
Defined.

(** ** Two decimals *)

Lemma round_half_even_of_integer (n : Z) (x : Q) :
  x == inject_Z n -> round_half_even x = n.
Proof.
  intros E. unfold round_half_even.
  assert (Qfloor x = n) as Hf by (rewrite E; apply Qfloor_Z).
  rewrite Hf.
  destruct (Qcompare_spec (x - inject_Z n) (1 # 2)) as [H | H | H];
    [lra | reflexivity | lra].
Qed.

Lemma round_2_round_2 (x : Q) : round (round x 2) 2 == round x 2.
Proof.
  rewrite (round_2_unfold (round x 2)).
  rewrite (round_half_even_of_integer (round_half_even (x * 100))).
  - rewrite <- round_2_unfold. reflexivity.
  - rewrite round_2_unfold. lra.
Qed.

(** X12: each of the six numbers stored in each row of a generated table
    has at most two decimals: rounding it to 2 places again gives the same
    number. *)
Theorem stored_numbers_have_two_decimals {RandomState : Type}
    (random_sample : RandomState -> Q * RandomState) (g : RandomState) :
  exists (t : DataFrame) (g' : RandomState),
    generate_complete_year_data random_sample g = Ok (t, g')
    /\ Forall two_decimals t.
Proof.
  apply generated_rows_Forall. intros s m day_counter g0 Hs Hm.
  unfold two_decimals, row_of.
  cbn [irradiance humidity wind_speed ambient_temperature tilt_angle kwh].
  repeat split; apply round_2_round_2.
Qed.

(** ** Grouped means *)

Lemma group_keys_Permutation (keys : list string) :
  group_keys keys ≡ₚ unique keys.
Proof. apply merge_sort_Permutation. Qed.

Lemma elem_of_group_keys (keys : list string) (k : string) :
  k ∈ group_keys keys <-> k ∈ keys.
Proof. now rewrite group_keys_Permutation, elem_of_unique. Qed.

Lemma NoDup_group_keys (keys : list string) : NoDup (group_keys keys).
Proof. rewrite group_keys_Permutation. apply NoDup_unique_from. Qed.

#[local] Instance string_le_total : Total string_le.
Proof. intros a b. apply String.leb_total. Qed.

Lemma Sorted_group_keys (keys : list string) : Sorted string_le (group_keys keys).
Proof. apply Sorted_merge_sort. apply string_le_total. Qed.

(** The part of a column that falls to the keys [ks], summed group by
    group. *)
Lemma series_sum_by_groups (key : Row -> string) (value : Row -> Q)
    (ks : list string) (df : DataFrame) :
  NoDup ks -> (forall r, r ∈ df -> key r ∈ ks) ->
  foldr (fun k acc => series_sum (map value (group key k df)) + acc) 0 ks
  == series_sum (map value df).
Proof.
  intros Hnd. induction df as [| r df IH]; intros Hall.
  - clear Hall. induction ks as [| k ks IHk]; [reflexivity |].
    cbn [foldr]. rewrite IHk by now apply NoDup_cons in Hnd.
    change (series_sum (map value (group key k []))) with 0.
    change (series_sum (map value [])) with 0. lra.
  - assert (forall ks', NoDup ks' ->
              foldr (fun k acc => series_sum (map value (group key k (r :: df))) + acc)
                0 ks'
              == (if bool_decide (key r ∈ ks') then value r else 0)
                 + foldr (fun k acc => series_sum (map value (group key k df)) + acc)
                     0 ks') as Hstep.
    { clear. induction ks' as [| k ks' IHk]; intros Hnd.
      - cbn [foldr]. rewrite bool_decide_eq_false_2 by apply not_elem_of_nil. lra.
      - apply NoDup_cons in Hnd as [Hk Hnd]. cbn [foldr]. rewrite (IHk Hnd).
        unfold group at 1. cbn [List.filter].
        fold (group key k df).
        destruct (bool_decide_reflect (key r = k)) as [E | E].
        + subst k. rewrite (bool_decide_eq_true_2 (key r ∈ key r :: ks')) by left.
          rewrite (bool_decide_eq_false_2 (key r ∈ ks')) by exact Hk.
          cbn [map series_sum foldr]. fold (series_sum (map value (group key (key r) df))).
          lra.
        + destruct (bool_decide_reflect (key r ∈ ks')) as [Hin | Hin].
          * rewrite (bool_decide_eq_true_2 (key r ∈ k :: ks')) by now right.
            lra.
          * rewrite (bool_decide_eq_false_2 (key r ∈ k :: ks')).
            -- lra.
            -- rewrite elem_of_cons. tauto. }
    rewrite (Hstep ks Hnd).
    rewrite (bool_decide_eq_true_2 (key r ∈ ks)) by (apply Hall; left).
    rewrite IH by (intros r' Hr'; apply Hall; now right).
    cbn [map series_sum foldr]. fold (series_sum (map value df)). lra.
Qed.

Lemma group_nonempty (key : Row -> string) (k : string) (df : DataFrame) :
  k ∈ map key df -> group key k df <> [].
Proof.
  intros Hk E. apply list_elem_of_fmap in Hk as (r & -> & Hr).
  assert (r ∈ group key (key r) df) as Hin.
  { unfold group. rewrite list_elem_of_In, filter_In, <- list_elem_of_In.
    split; [exact Hr | now apply bool_decide_eq_true]. }
  rewrite E in Hin. inversion Hin.
Qed.

Lemma weighted_total_groupby_mean (key : Row -> string) (value : Row -> Q)
    (df : DataFrame) :
  weighted_total key df (groupby_mean key value df) == series_sum (map value df).
Proof.
  rewrite <- (series_sum_by_groups key value (group_keys (map key df)) df
                (NoDup_group_keys _)).
  2: { intros r Hr. apply elem_of_group_keys, list_elem_of_fmap. now exists r. }
  unfold weighted_total, groupby_mean.
  assert (forall k, k ∈ group_keys (map key df) -> k ∈ map key df) as Hks
    by (intros k; apply elem_of_group_keys).
  induction (group_keys (map key df)) as [| k ks IH]; [reflexivity |].
  cbn [map foldr fst snd]. rewrite IH by (intros k' Hk'; apply Hks; now right).
  assert (group key k df <> []) as Hne by (apply group_nonempty, Hks; left).
  destruct (group key k df) as [| r rs] eqn:Eg; [contradiction |].
  destruct (series_mean_times_length (value r) (map value rs)) as (m & Hm & Hmn).
  cbn [map]. rewrite Hm. cbn [default].
  cbn [length] in Hmn |- *. rewrite length_map in Hmn. rewrite Hmn. reflexivity.
Qed.

(** X8: for every frame, the grouped means behind the bar chart by season
    have one row per season present in the frame, the seasons in ascending
    order of their names and none twice; every mean is a number (no group
    is empty); and the means, weighted by the number of rows of their
    groups, add up to the total of [kwh] over the frame (in exact
    arithmetic). *)
Theorem seasonal_means_weigh_to_the_total (df : DataFrame) :
  NoDup (map fst (seasonal_avg df))
  /\ Sorted string_le (map fst (seasonal_avg df))
  /\ (forall s, s ∈ map fst (seasonal_avg df) <-> exists r, r ∈ df /\ season r = s)
  /\ Forall (fun entry => is_Some entry.2) (seasonal_avg df)
  /\ weighted_total season df (seasonal_avg df) == series_sum (map kwh df).
Proof.
  assert (map fst (seasonal_avg df) = group_keys (map season df)) as Hkeys.
  { unfold seasonal_avg, groupby_mean. rewrite map_map. apply map_id. }
  rewrite Hkeys.
  split; [apply NoDup_group_keys |].
  split; [apply Sorted_group_keys |].
  split.
  { intros s. rewrite elem_of_group_keys, list_elem_of_fmap.
    split; intros (r & H1 & H2); exists r; split; solve [assumption | congruence]. }
  split; [| apply weighted_total_groupby_mean].
  unfold seasonal_avg, groupby_mean. apply Forall_fmap, Forall_forall.
  intros k Hk. unfold compose. cbn [snd].
  apply (proj1 (elem_of_group_keys _ _)) in Hk.
  apply (group_nonempty season k df) in Hk.
  destruct (group season k df) as [| r rs]; [contradiction |].
  cbn [map series_mean]. eexists. reflexivity.
Qed.

Lemma elem_of_group (key : Row -> string) (k : string) (df : DataFrame) (r : Row) :
  r ∈ group key k df <-> r ∈ df /\ key r = k.
Proof.
  unfold group.
  rewrite !(list_elem_of_In _ r), filter_In, bool_decide_eq_true. reflexivity.
Qed.

Lemma length_group_season (k : string) (df : DataFrame) :
  length (group season k df)
  = length (List.filter (fun s => bool_decide (s = k)) (map season df)).
Proof.
  unfold group.
  rewrite <- (filter_map_comm season (fun s => bool_decide (s = k))).
  now rewrite length_map.
Qed.

Lemma group_mean_in_band (k : string) (lo hi : Q) (df : DataFrame) :
  Forall in_yield_band df ->
  (forall r, season r = k -> in_yield_band r -> lo <= kwh r /\ kwh r <= hi) ->
  group season k df <> [] ->
  exists m, series_mean (map kwh (group season k df)) = Some m /\ lo <= m /\ m <= hi.
Proof.
  intros Hband Hk Hne. apply series_mean_bounds.
  - intros E. apply Hne. now apply fmap_nil_inv in E.
  - apply Forall_fmap, Forall_forall. intros r Hr.
    apply elem_of_group in Hr as [Hr Hs]. apply Hk; [exact Hs |].
    rewrite Forall_forall in Hband. now apply Hband.
Qed.

(** X9: when every draw is a number of [0, 1), the bar chart by season of
    a whole generated table has three bars, monsoon, summer and winter in
    this order, standing for 123, 122 and 120 days; the monsoon mean lies
    in [5.22, 84.83], the summer mean in [149.9, 254.1] and the winter mean
    in [51.91, 126.79], so the summer bar is the tallest. *)
Theorem summer_bar_is_the_tallest {RandomState : Type}
    (random_sample : RandomState -> Q * RandomState)
    (random_sample_range :
       forall g, 0 <= fst (random_sample g) /\ fst (random_sample g) < 1)
    (g : RandomState) :
  exists (t : DataFrame) (g' : RandomState),
    generate_complete_year_data random_sample g = Ok (t, g')
    /\ length (group season "monsoon" t) = 123%nat
    /\ length (group season "summer" t) = 122%nat
    /\ length (group season "winter" t) = 120%nat
    /\ exists a b c,
         seasonal_avg t = [("monsoon", Some a); ("summer", Some b); ("winter", Some c)]
         /\ (5.22 <= a /\ a <= 84.83)
         /\ (149.9 <= b /\ b <= 254.1)
         /\ (51.91 <= c /\ c <= 126.79)
         /\ a < b /\ c < b.
Proof.
  exists (expected_months random_sample months_days 1 g),
         (advance random_sample 1825 g).
  split; [apply generate_complete_year_data_expected |].
  set (t := expected_months random_sample months_days 1 g).
  pose proof (generated_rows_in_yield_band random_sample random_sample_range g)
    as Hband. fold t in Hband.
  assert (length (group season "monsoon" t) = 123%nat) as Lm.
  { rewrite length_group_season. unfold t. rewrite expected_months_seasons.
    vm_compute. reflexivity. }
  assert (length (group season "summer" t) = 122%nat) as Ls.
  { rewrite length_group_season. unfold t. rewrite expected_months_seasons.
    vm_compute. reflexivity. }
  assert (length (group season "winter" t) = 120%nat) as Lw.
  { rewrite length_group_season. unfold t. rewrite expected_months_seasons.
    vm_compute. reflexivity. }
  split; [exact Lm |]. split; [exact Ls |]. split; [exact Lw |].
  destruct (group_mean_in_band "monsoon" 5.22 84.83 t Hband) as (a & Ha & Ha1 & Ha2).
  { intros r Hs [(E & _) | [(E & _) | (_ & H)]];
      [rewrite Hs in E; discriminate | rewrite Hs in E; discriminate | exact H]. }
  { intros E. rewrite E in Lm. discriminate. }
  destruct (group_mean_in_band "summer" 149.9 254.1 t Hband) as (b & Hb & Hb1 & Hb2).
  { intros r Hs [(_ & H) | [(E & _) | (E & _)]];
      [exact H | rewrite Hs in E; discriminate | rewrite Hs in E; discriminate]. }
  { intros E. rewrite E in Ls. discriminate. }
  destruct (group_mean_in_band "winter" 51.91 126.79 t Hband) as (c & Hc & Hc1 & Hc2).
  { intros r Hs [(E & _) | [(_ & H) | (E & _)]];
      [rewrite Hs in E; discriminate | exact H | rewrite Hs in E; discriminate]. }
  { intros E. rewrite E in Lw. discriminate. }
  exists a, b, c.
  split.
  { unfold seasonal_avg, groupby_mean.
    replace (group_keys (map season t)) with ["monsoon"; "summer"; "winter"].
    - cbn [map]. now rewrite Ha, Hb, Hc.
    - unfold t. rewrite expected_months_seasons. vm_compute. reflexivity. }
  repeat split; lra.
Qed.

(** X9 at the generator that always draws one half. *)
Lemma summer_bar_is_the_tallest_witness :
  exists (t : DataFrame) (g' : nat),
    generate_complete_year_data half_sample 0%nat = Ok (t, g')
    /\ length (group season "monsoon" t) = 123%nat
    /\ length (group season "summer" t) = 122%nat
    /\ length (group season "winter" t) = 120%nat
    /\ exists a b c,
         seasonal_avg t = [("monsoon", Some a); ("summer", Some b); ("winter", Some c)]
         /\ (5.22 <= a /\ a <= 84.83)
         /\ (149.9 <= b /\ b <= 254.1)
         /\ (51.91 <= c /\ c <= 126.79)
         /\ a < b /\ c < b.
Proof.
  apply (summer_bar_is_the_tallest half_sample).
  intros g. simpl. split; lra.
Defined.

(** ** The loops on any table of months *)

Lemma calendar_days_from (items : list (string * Z)) (day_counter : Z) :
  map (fun k => k.1.1) (calendar items day_counter)
  = seqZ day_counter (Z.of_nat (total_days items)).
Proof.
  revert day_counter. induction items as [| [m d] items IH]; intros day_counter.
  - reflexivity.
  - cbn [calendar total_days foldr snd]. fold (total_days items).
    rewrite map_app, IH, map_map. cbn [fst].
    rewrite Nat2Z.inj_add, seqZ_app by lia. f_equal.
    unfold seqZ. rewrite Nat2Z.id. apply map_ext. intros i. lia.
Qed.

Lemma map_const_replicate {A B : Type} (b : B) (l : list A) :
  map (fun _ => b) l = replicate (length l) b.
Proof. induction l as [| a l IH]; [reflexivity | cbn; now rewrite IH]. Qed.

(** X13: for every table of months whose months all have a season among
    the three, from any frame built so far, any day counter and any
    generator state, the outer loop returns; it leaves the rows it was
    given in place and appends one row per day of the table (a month of
    zero or fewer days gives none), numbered upwards from the counter; the
    counter ends that many higher and the generator that many times five
    draws further. *)
Theorem months_loop_appends_numbered_rows {RandomState : Type}
    (random_sample : RandomState -> Q * RandomState)
    (items : list (string * Z)) (data : DataFrame) (day_counter : Z)
    (g : RandomState) :
  months_ok items ->
  exists rows,
    months_loop random_sample items data day_counter g
    = Ok ((data ++ rows, (day_counter + Z.of_nat (total_days items))%Z),
          advance random_sample (5 * total_days items) g)
    /\ length rows = total_days items
    /\ map day rows = seqZ day_counter (Z.of_nat (total_days items))
    /\ map month rows
       = flat_map (fun item => replicate (Z.to_nat item.2) item.1) items.
Proof.
  intros Hok.
  exists (expected_months random_sample items day_counter g).
  split; [now apply months_loop_expected |].
  split; [apply length_expected_months |].
  pose proof (expected_months_key random_sample items day_counter g) as Hkey.
  split.
  - rewrite <- calendar_days_from, <- Hkey, map_map. reflexivity.
  - transitivity (map (fun k => k.1.2) (calendar items day_counter)).
    + rewrite <- Hkey, map_map. reflexivity.
    + clear. revert day_counter.
      induction items as [| [m d] items IH]; intros day_counter; [reflexivity |].
      cbn [calendar flat_map fst snd]. rewrite map_app, IH, map_map. f_equal.
      cbn [fst snd]. rewrite (map_const_replicate m), length_seq. reflexivity.
Qed.

(** X13 at a table of two months, one of them of no days, continuing a
    frame of two rows at day 61. *)
Lemma months_loop_appends_numbered_rows_witness :
  exists rows,
    months_loop half_sample [("March", 3%Z); ("July", (-2)%Z); ("May", 2%Z)]
      two_days 61 0%nat
    = Ok ((two_days ++ rows,
           (61 + Z.of_nat (total_days [("March", 3%Z); ("July", (-2)%Z); ("May", 2%Z)]))%Z),
          advance half_sample
            (5 * total_days [("March", 3%Z); ("July", (-2)%Z); ("May", 2%Z)]) 0%nat)
    /\ length rows = total_days [("March", 3%Z); ("July", (-2)%Z); ("May", 2%Z)]
    /\ map day rows
       = seqZ 61 (Z.of_nat (total_days [("March", 3%Z); ("July", (-2)%Z); ("May", 2%Z)]))
    /\ map month rows
       = flat_map (fun item => replicate (Z.to_nat item.2) item.1)
           [("March", 3%Z); ("July", (-2)%Z); ("May", 2%Z)].
Proof.
  apply (months_loop_appends_numbered_rows half_sample).
  unfold months_ok.
  repeat (apply Forall_cons; split;
    [ eexists; split; [vm_compute; reflexivity | repeat constructor] |]).
  apply Forall_nil. exact I.
Defined.

(** X14: if a table of months reaches, after months that all have a
    season, a month that [month_to_season] does not know, the outer loop
    raises [KeyError] for that month, whatever the days of the month and
    whatever follows it; the rows built before are lost with it. *)
Theorem months_loop_unknown_month_raises {RandomState : Type}
    (random_sample : RandomState -> Q * RandomState)
    (before after : list (string * Z)) (m : string) (d : Z)
    (data : DataFrame) (day_counter : Z) (g : RandomState) :
  months_ok before ->
  month_to_season !! m = None ->
  months_loop random_sample (before ++ (m, d) :: after) data day_counter g
  = Raise (KeyError m).
Proof.
  intros Hok Hm. revert data day_counter g.
  induction Hok as [| [m0 d0] before (s & Hm0 & Hs) _ IH]; intros data day_counter g.
  - cbn [app months_loop]. unfold mbind at 1, M_bind at 1, lift, getitem.
    now rewrite Hm.
  - cbn [app months_loop fst] in *.
    unfold mbind at 1, M_bind at 1, lift, getitem. rewrite Hm0.
    unfold mbind at 1, M_bind at 1.
    rewrite (days_loop_expected _ _ s m0 data day_counter g Hs).
    apply IH.
Qed.

(** X14 at January followed by a thirteenth month. *)
Lemma months_loop_unknown_month_raises_witness :
  months_loop half_sample ([("January", 31%Z)] ++ ("Undecimber", 5%Z) :: [("May", 31%Z)])
    [] 1 0%nat
  = Raise (KeyError "Undecimber").
Proof.
  apply (months_loop_unknown_month_raises half_sample).
  - unfold months_ok.
    apply Forall_cons; split;
      [eexists; split; [vm_compute; reflexivity | repeat constructor] |].
    apply Forall_nil. exact I.
  - vm_compute. reflexivity.
Defined.

(** ** The bar chart by month *)

#[local] Instance code_le_trans : Transitive code_le.
Proof. intros [a |] [b |] [c |]; simpl; try tauto; lia. Qed.

#[local] Instance code_le_total : Total code_le.
Proof. intros [a |] [b |]; simpl; try tauto; lia. Qed.

#[local] Instance month_le_trans : Transitive month_le.
Proof. intros a b c. unfold month_le. apply code_le_trans. Qed.

#[local] Instance month_le_total : Total month_le.
Proof. intros a b. unfold month_le. apply code_le_total. Qed.

Lemma category_code_Some (categories : list string) (x : string) :
  x ∈ categories ->
  exists i, category_code categories x = Some i /\ categories !! i = Some x.
Proof.
  intros Hx. unfold category_code.
  destruct (list_find_elem_of (fun c => c = x) categories x Hx eq_refl)
    as [[i y] Hfind].
  rewrite Hfind. exists i. split; [reflexivity |].
  apply list_find_Some in Hfind as (Hi & -> & _). exact Hi.
Qed.

Lemma StronglySorted_filter {A : Type} (R : relation A) (p : A -> bool) (l : list A) :
  StronglySorted R l -> StronglySorted R (List.filter p l).
Proof.
  induction 1 as [| x l Hs IH Hall]; simpl; [constructor |].
  destruct (p x); [| exact IH].
  constructor; [exact IH |].
  rewrite Forall_forall in Hall |- *. intros y Hy.
  apply Hall. rewrite list_elem_of_In in Hy |- *.
  now apply filter_In in Hy.
Qed.

Lemma StronglySorted_map {A B : Type} (R : relation B) (f : A -> B) (l : list A) :
  StronglySorted (fun a b => R (f a) (f b)) l -> StronglySorted R (map f l).
Proof.
  induction 1 as [| x l Hs IH Hall]; simpl; constructor; [exact IH |].
  now apply Forall_fmap.
Qed.

Lemma month_order_sorted :
  StronglySorted
    (fun a b => code_le (category_code month_order a) (category_code month_order b))
    month_order.
Proof.
  unfold month_order.
  repeat (constructor; [| repeat (constructor; [vm_compute; lia |]); constructor]).
  constructor.
Qed.

Lemma month_order_NoDup : NoDup month_order.
Proof. apply (bool_decide_unpack _). vm_compute. exact I. Qed.

(** On a frame whose months are all categories, the chart lists the months
    present, in the order of the categories, each with its mean. *)
Lemma monthly_avg_in_month_order (f : DataFrame) :
  (forall r, r ∈ f -> month r ∈ month_order) ->
  monthly_avg f
  = map (fun m => (m, series_mean (map kwh (group month m f))))
      (List.filter (fun m => bool_decide (m ∈ map month f)) month_order).
Proof.
  intros Hmonths. unfold monthly_avg, groupby_mean.
  set (F := fun m : string => (m, series_mean (map kwh (group month m f)))).
  set (ks := group_keys (map month f)).
  set (ks' := List.filter (fun m => bool_decide (m ∈ map month f)) month_order).
  assert (forall m, m ∈ ks' <-> m ∈ map month f) as Hks'.
  { intros m. unfold ks'.
    rewrite !(list_elem_of_In _ m), filter_In, bool_decide_eq_true,
      <- !(list_elem_of_In _ m).
    split; [tauto |]. intros Hm. split; [| exact Hm].
    apply list_elem_of_fmap in Hm as (r & -> & Hr). now apply Hmonths. }
  assert (ks ≡ₚ ks') as Hperm.
  { apply NoDup_Permutation.
    - apply NoDup_group_keys.
    - unfold ks'. apply NoDup_ListNoDup, List.NoDup_filter, NoDup_ListNoDup,
        month_order_NoDup.
    - intros m. unfold ks. now rewrite elem_of_group_keys, Hks'. }
  apply StronglySorted_unique_strong with (R := month_le).
  - intros x1 x2 H1 H2 R12 R21.
    rewrite merge_sort_Permutation in H1.
    apply list_elem_of_fmap in H1 as (k1 & -> & Hk1).
    apply list_elem_of_fmap in H2 as (k2 & -> & Hk2).
    rewrite Hperm in Hk1.
    assert (k1 ∈ month_order) as Hin1.
    { apply Hks' in Hk1. apply list_elem_of_fmap in Hk1 as (r & -> & Hr).
      now apply Hmonths. }
    assert (k2 ∈ month_order) as Hin2.
    { apply Hks' in Hk2. apply list_elem_of_fmap in Hk2 as (r & -> & Hr).
      now apply Hmonths. }
    destruct (category_code_Some _ _ Hin1) as (i1 & Hc1 & Hi1).
    destruct (category_code_Some _ _ Hin2) as (i2 & Hc2 & Hi2).
    unfold month_le, F in R12, R21. cbn [fst] in R12, R21.
    rewrite Hc1, Hc2 in R12, R21. simpl in R12, R21.
    assert (i1 = i2) as -> by lia.
    rewrite Hi1 in Hi2. injection Hi2 as ->. reflexivity.
  - apply StronglySorted_merge_sort; apply _.
  - apply StronglySorted_map. unfold month_le, F. cbn [fst].
    apply StronglySorted_filter, month_order_sorted.
  - rewrite merge_sort_Permutation. now apply fmap_Permutation.
Qed.

Lemma calendar_months_in_order :
  Forall (fun k => k.1.2 ∈ month_order /\ k.2 = season_of k.1.2)
    (calendar months_days 1)
  /\ Forall (fun m => m ∈ map (fun k => k.1.2) (calendar months_days 1)) month_order.
Proof. split; apply (bool_decide_unpack _); vm_compute; exact I. Qed.

Lemma expected_months_row_month {RandomState : Type}
    (random_sample : RandomState -> Q * RandomState) (g : RandomState) (r : Row) :
  r ∈ expected_months random_sample months_days 1 g ->
  month r ∈ month_order /\ season r = season_of (month r).
Proof.
  intros Hr. destruct calendar_months_in_order as [Hcal _].
  rewrite <- (expected_months_key random_sample months_days 1 g) in Hcal.
  rewrite Forall_fmap, Forall_forall in Hcal. exact (Hcal r Hr).
Qed.

(** X15: on every generated table and for every selection, the bar chart
    by month has one bar for each month that is selected and whose season
    is selected, the bars stand in calendar order whatever the order of
    the selection, and each bar is the mean of [kwh] over the selected
    days of its month, a number.  With the default selections the bars
    are the twelve months from January to December. *)
Theorem monthly_bars_stand_in_calendar_order {RandomState : Type}
    (random_sample : RandomState -> Q * RandomState) (g : RandomState) :
  exists (t : DataFrame) (g' : RandomState),
    generate_complete_year_data random_sample g = Ok (t, g')
    /\ (forall selected_seasons selected_months,
          let f := filtered_df t selected_seasons selected_months in
          monthly_avg f
          = map (fun m => (m, series_mean (map kwh (group month m f))))
              (List.filter
                 (fun m => isin (season_of m) selected_seasons
                           && isin m selected_months)
                 month_order)
          /\ sublist (map fst (monthly_avg f)) month_order
          /\ Forall (fun entry => is_Some entry.2) (monthly_avg f))
    /\ map fst (monthly_avg (filtered_df t (default_seasons t) (default_months t)))
       = month_order.
Proof.
  exists (expected_months random_sample months_days 1 g),
         (advance random_sample 1825 g).
  split; [apply generate_complete_year_data_expected |].
  set (t := expected_months random_sample months_days 1 g).
  assert (forall selected_seasons selected_months,
            monthly_avg (filtered_df t selected_seasons selected_months)
            = map (fun m => (m, series_mean
                                  (map kwh (group month m
                                     (filtered_df t selected_seasons selected_months)))))
                (List.filter
                   (fun m => isin (season_of m) selected_seasons
                             && isin m selected_months)
                   month_order)) as Hbars.
  { intros selected_seasons selected_months.
    rewrite monthly_avg_in_month_order.
    2: { intros r Hr. apply elem_of_filtered_df in Hr as [Hr _].
         now apply (expected_months_row_month random_sample g). }
    f_equal. apply List.filter_ext_in. intros m Hm.
    apply list_elem_of_In in Hm.
    apply eq_true_iff_eq. unfold isin.
    rewrite andb_true_iff, !bool_decide_eq_true, list_elem_of_fmap.
    split.
    - intros (r & -> & Hr). apply elem_of_filtered_df in Hr as (Hr & Hs & Hmo).
      destruct (expected_months_row_month random_sample g r Hr) as [_ E].
      rewrite <- E. tauto.
    - intros [Hs Hmo].
      destruct calendar_months_in_order as [_ Hall].
      rewrite Forall_forall in Hall. specialize (Hall m Hm).
      rewrite <- (expected_months_months random_sample g) in Hall.
      apply list_elem_of_fmap in Hall as (r & -> & Hr).
      exists r. split; [reflexivity |].
      apply elem_of_filtered_df. split; [exact Hr |]. split; [| exact Hmo].
      destruct (expected_months_row_month random_sample g r Hr) as [_ E].
      now rewrite E. }
  split.
  - intros selected_seasons selected_months. cbv zeta.
    split; [apply Hbars |].
    rewrite Hbars, map_map. cbn [fst]. rewrite map_id.
    split.
    + clear. induction month_order as [| m l IH]; simpl; [constructor |].
      destruct (_ && _); [now apply sublist_skip | now apply sublist_cons].
    + apply Forall_fmap, Forall_forall. intros m Hm. unfold compose. cbn [snd].
      apply list_elem_of_In, filter_In in Hm as [Hm Hsel].
      apply list_elem_of_In in Hm.
      destruct calendar_months_in_order as [_ Hall].
      rewrite Forall_forall in Hall. specialize (Hall m Hm).
      rewrite <- (expected_months_months random_sample g) in Hall.
      apply list_elem_of_fmap in Hall as (r & -> & Hr).
      destruct (expected_months_row_month random_sample g r Hr) as [_ E].
      apply andb_true_iff in Hsel as [Hs Hmo].
      unfold isin in Hs, Hmo. apply bool_decide_eq_true in Hs, Hmo.
      assert (r ∈ group month (month r)
                    (filtered_df t selected_seasons selected_months)) as Hin.
      { apply elem_of_group. split; [| reflexivity].
        apply elem_of_filtered_df. rewrite E. tauto. }
      destruct (group month (month r) (filtered_df t selected_seasons selected_months))
        as [| r0 rs]; [inversion Hin |].
      cbn [map series_mean]. eexists. reflexivity.
  - rewrite Hbars, map_map. cbn [fst]. rewrite map_id.
    unfold default_seasons, default_months, t.
    rewrite expected_months_seasons, expected_months_months.
    vm_compute. reflexivity.
Qed.
